(** * The sync engine of bi-agent-dashboard

    A shallow embedding of the fetch, flatten and load primitives of
    [scripts/hubspot.py], [scripts/sync_posthog.py] and
    [scripts/sync_athena.py], and the properties the specification states
    about them.

    Python values are the JSON documents the services send.  Effects are
    explicit: a function that talks to a service, sleeps, prints or touches
    the file system or the embedded store is a state transformer over a
    [world]; a function that can raise returns an [outcome].  The remote
    services, and the readers of the embedded store, are parameters of the
    development: nothing is assumed of them beyond what a statement says. *)

From Stdlib Require Import ZArith Floats Ascii String.
From stdpp Require Import gmap strings list fin_maps pretty.

#[local] Set Warnings "-register-all".
#[local] Open Scope Z_scope.

(** ** Python values *)

(** What [response.json()] and boto3 hand to the scripts.  A Python [int] is
    unbounded, a [float] is a binary64. *)
Inductive json : Type :=
  | JNull
  | JBool (b : bool)
  | JInt (z : Z)
  | JFloat (f : float)
  | JStr (s : string)
  | JList (l : list json)
  | JDict (d : gmap string json).

(** [bool(v)], as [if v:] and [not v] use it. *)
Definition truthy (v : json) : bool :=
  match v with
  | JNull => false
  | JBool b => b
  | JInt z => negb (z =? 0)
  | JFloat f => negb (PrimFloat.eqb f 0%float)
  | JStr s => negb (String.eqb s "")
  | JList l => match l with [] => false | _ :: _ => true end
  | JDict d => negb (bool_decide (d = ∅))
  end.

(** ** HTTP messages *)

(** A header value, by what [int(...)] makes of its text: the integer it
    denotes, or a text [int] rejects (an HTTP date, say). *)
Inductive header_value :=
  | IntText (n : Z)
  | OtherText (s : string).

(** A response body, by what [response.text] and [response.json()] make of
    it: empty text, text that decodes to a document, or non-empty text that
    does not decode. *)
Inductive body :=
  | NoContent
  | Document (doc : json)
  | Malformed (text : string).

Record response := {
  status_code : Z;
  retry_after : option header_value;   (* headers.get('Retry-After') *)
  content : body
}.

Record request := {
  rq_method : string;
  rq_url : string;
  rq_headers : list (string * string);
  rq_params : option (gmap string json);
  rq_json : option json
}.

(** ** Exceptions and outcomes *)

Inductive exn :=
  | KeyError (key : string)
  | TypeError
  | ValueError
  | AttributeError
  | IndexError
  | JSONDecodeError
  | HTTPError (r : response)          (* raise_for_status *)
  | RequestException (msg : string)   (* requests: no connection, bad URL *)
  | ClientError (msg : string)        (* botocore *)
  | StoreError (msg : string)         (* duckdb *)
  | OSError (path : string)
  | SystemExit (code : Z).

(** [except Exception] catches everything the scripts can raise but
    [SystemExit]. *)
Definition is_Exception (e : exn) : bool :=
  match e with SystemExit _ => false | _ => true end.

(** The result of running a piece of the scripts.  [OutOfFuel] is a loop
    that has not finished within the steps granted; [DuckTyped] is a call
    that Python would carry out through a protocol this development does not
    describe (see [dict_update] and [list_extend]).  Neither is an
    exception, and no [except] clause catches them. *)
Inductive outcome (A : Type) :=
  | Ok (a : A)
  | Raise (e : exn)
  | OutOfFuel
  | DuckTyped.
Arguments Ok {A} a.
Arguments Raise {A} e.
Arguments OutOfFuel {A}.
Arguments DuckTyped {A}.

Definition obind {A B} (m : outcome A) (k : A → outcome B) : outcome B :=
  match m with
  | Ok a => k a
  | Raise e => Raise e
  | OutOfFuel => OutOfFuel
  | DuckTyped => DuckTyped
  end.

#[global] Instance outcome_ret : MRet outcome := @Ok.
#[global] Instance outcome_bind : MBind outcome := λ A B k m, obind m k.

(** ** Operations on values *)

(** [v[key]] for a string key. *)
Definition py_index (v : json) (key : string) : outcome json :=
  match v with
  | JDict d => match d !! key with Some x => Ok x | None => Raise (KeyError key) end
  | _ => Raise TypeError
  end.

(** [v.get(key, dflt)]: only a dict has the method. *)
Definition py_get (v : json) (key : string) (dflt : json) : outcome json :=
  match v with
  | JDict d => Ok (default dflt (d !! key))
  | _ => Raise AttributeError
  end.

(** [flat.update(other)].  A mapping overlays its entries on [flat]; a
    value that cannot be iterated raises.  A string or an array goes through
    the sequence-of-pairs protocol: nothing happens when it is empty, a
    string that is not fails on its first character, and an array that is
    not can yield rows whose keys are not strings, which is left out. *)
Definition dict_update (flat : gmap string json) (other : json)
    : outcome (gmap string json) :=
  match other with
  | JDict d => Ok (d ∪ flat)
  | JNull | JBool _ | JInt _ | JFloat _ => Raise TypeError
  | JStr s => if String.eqb s "" then Ok flat else Raise ValueError
  | JList [] => Ok flat
  | JList (_ :: _) => DuckTyped
  end.

(** [acc.extend(other)].  An array appends its elements; a value that cannot
    be iterated raises.  A string would append its characters and a dict its
    keys in insertion order: nothing when they are empty, and otherwise left
    out. *)
Definition list_extend (acc : list json) (other : json) : outcome (list json) :=
  match other with
  | JList l => Ok (acc ++ l)
  | JNull | JBool _ | JInt _ | JFloat _ => Raise TypeError
  | JStr s => if String.eqb s "" then Ok acc else DuckTyped
  | JDict d => if bool_decide (d = ∅) then Ok acc else DuckTyped
  end.

(** ** The record flattener (hubspot.py) *)

Module HubSpotFlatten.

Definition flatten_hubspot_object (obj : json) : outcome (gmap string json) :=
  oid ← py_index obj "id";
  created_at ← py_get obj "createdAt" JNull;
  updated_at ← py_get obj "updatedAt" JNull;
  archived ← py_get obj "archived" (JBool false);
  let flat : gmap string json :=
    <["archived" := archived]>
      (<["updated_at" := updated_at]>
        (<["created_at" := created_at]>
          (<["id" := oid]> ∅))) in
  properties ← py_get obj "properties" (JDict ∅);
  dict_update flat properties.

(** The four keys the flattener writes before it overlays the properties. *)
Definition metadata_keys : gset string :=
  {["id"; "created_at"; "updated_at"; "archived"]}.

(** The property bag of an object: the mapping under ["properties"], the
    empty one when the key is absent. *)
Definition property_bag (obj : gmap string json) : option (gmap string json) :=
  match obj !! "properties" with
  | None => Some ∅
  | Some (JDict p) => Some p
  | Some _ => None
  end.

End HubSpotFlatten.


(** ** The world *)

(** A value interpolated into a printed line.  A line is recorded as the
    f-string's template and the values it interpolates; how [str] renders
    them is Python's business. *)
Inductive pyval :=
  | PJson (j : json)
  | PInt (z : Z)
  | PStr (s : string)
  | PExn (e : exn).

Inductive event :=
  | EvRequest (rq : request)                     (* requests.request / .get *)
  | EvSleep (secs : Z)                           (* time.sleep *)
  | EvPrint (template : string) (args : list pyval)
  | EvStartQuery (query database workgroup output_location : string)
  | EvGetQuery (execution_id : json)
  | EvDownload (bucket key dest : string).       (* s3.download_file *)

Inductive file :=
  | JsonFile (doc : json)      (* written by json.dump *)
  | Blob (data : string).      (* downloaded from the object store *)

(** The state a script runs against: the remote services (of a type [R] the
    development does not fix), the local files and directories, the tables
    of the script's embedded store (of a type [T] its readers produce), and
    what the script has done so far, oldest event first. *)
Record world {R T : Type} := World {
  remote : R;
  files : gmap string file;
  dirs : gset string;
  tables : gmap string T;
  trace : list event
}.
Arguments world : clear implicits.
Arguments World {R T}.

Definition prog (W A : Type) : Type := W → outcome A * W.

#[global] Instance prog_ret {W} : MRet (prog W) := λ A a w, (Ok a, w).
#[global] Instance prog_bind {W} : MBind (prog W) := λ A B k m w,
  match m w with
  | (Ok a, w') => k a w'
  | (Raise e, w') => (Raise e, w')
  | (OutOfFuel, w') => (OutOfFuel, w')
  | (DuckTyped, w') => (DuckTyped, w')
  end.

Definition lift {W A} (o : outcome A) : prog W A := λ w, (o, w).
Definition raise {W A} (e : exn) : prog W A := lift (Raise e).
Definition out_of_fuel {W A} : prog W A := lift OutOfFuel.

(** [try: body  except Exception as e: handler(e)] *)
Definition try_except {W A} (body : prog W A) (handler : exn → prog W A) : prog W A :=
  λ w, match body w with
       | (Raise e, w') => if is_Exception e then handler e w' else (Raise e, w')
       | r => r
       end.

Section World.
Context {R T : Type}.
#[local] Abbreviation world := (world R T).

Definition with_remote (r : R) (w : world) : world :=
  World r (files w) (dirs w) (tables w) (trace w).
Definition with_files (f : gmap string file) (w : world) : world :=
  World (remote w) f (dirs w) (tables w) (trace w).
Definition with_dirs (d : gset string) (w : world) : world :=
  World (remote w) (files w) d (tables w) (trace w).
Definition with_tables (t : gmap string T) (w : world) : world :=
  World (remote w) (files w) (dirs w) t (trace w).

Definition emit (e : event) : prog world () := λ w,
  (Ok (), World (remote w) (files w) (dirs w) (tables w) (trace w ++ [e])).

Definition print (template : string) (args : list pyval) : prog world () :=
  emit (EvPrint template args).

(** [time.sleep(secs)] rejects a negative length. *)
Definition sleep (secs : Z) : prog world () :=
  if secs <? 0 then raise ValueError else emit (EvSleep secs).

(** A call of a remote service: the service's answer and its next state. *)
Definition call {A} (e : event) (service : R → (exn + A) * R) : prog world A :=
  λ w, let '(answer, r') := service (remote w) in
       (match answer with inl x => Raise x | inr a => Ok a end,
        World r' (files w) (dirs w) (tables w) (trace w ++ [e])).

(** [path.mkdir(parents=True, exist_ok=True)] *)
Definition mkdir (path : string) : prog world () := λ w,
  (Ok (), with_dirs ({[path]} ∪ dirs w) w).

Definition write_file (path : string) (f : file) : prog world () := λ w,
  (Ok (), with_files (<[path := f]> (files w)) w).

(** [with open(path, 'w') as f: json.dump(doc, f)] *)
Definition json_dump (doc : json) (path : string) : prog world () :=
  write_file path (JsonFile doc).

(** [path.unlink()] *)
Definition unlink (path : string) : prog world () := λ w,
  match files w !! path with
  | Some _ => (Ok (), with_files (delete path (files w)) w)
  | None => (Raise (OSError path), w)
  end.

End World.

(** ** The embedded store *)

(** DuckDB's readers are taken as given: what table [read_json_auto] makes
    of a JSON file and [read_csv_auto] of a downloaded one ([None] when the
    reader rejects the file), and how many rows a table has.  Table names
    are the plain identifiers the scripts pass, and file names have no
    separator. *)
Record engine (T : Type) := Engine {
  read_json_auto : json → option T;
  read_csv_auto : string → option T;
  row_count : T → Z
}.
Arguments read_json_auto {T}.
Arguments read_csv_auto {T}.
Arguments row_count {T}.

Section Store.
Context {R T : Type} (duckdb : engine T).
#[local] Abbreviation world := (world R T).

(** [DATA_DIR = Path(__file__).parent.parent / 'data'] *)
Definition DATA_DIR : string := "data".
Definition in_data_dir (name : string) : string := DATA_DIR +:+ "/" +:+ name.

(** [con.execute(f"DROP TABLE IF EXISTS {table_name}")] *)
Definition drop_table_if_exists (table_name : string) : prog world () := λ w,
  (Ok (), with_tables (delete table_name (tables w)) w).

Definition create_table (table_name : string) (contents : option T) : prog world () := λ w,
  match contents with
  | None => (Raise (StoreError "read"), w)
  | Some t =>
      match tables w !! table_name with
      | Some _ => (Raise (StoreError "exists"), w)
      | None => (Ok (), with_tables (<[table_name := t]> (tables w)) w)
      end
  end.

(** [con.execute(f"CREATE TABLE {table_name} AS SELECT * FROM
    read_json_auto('{json_path}')")] *)
Definition create_table_as_read_json (table_name path : string) : prog world () := λ w,
  create_table table_name
    (match files w !! path with
     | Some (JsonFile doc) => read_json_auto duckdb doc
     | _ => None
     end) w.

(** [... read_csv_auto('{csv_path}')] *)
Definition create_table_as_read_csv (table_name path : string) : prog world () := λ w,
  create_table table_name
    (match files w !! path with
     | Some (Blob data) => read_csv_auto duckdb data
     | _ => None
     end) w.

(** [con.execute(f"SELECT COUNT(*) FROM {table_name}").fetchone()[0]] *)
Definition select_count (table_name : string) : prog world Z := λ w,
  match tables w !! table_name with
  | Some t => (Ok (row_count duckdb t), w)
  | None => (Raise (StoreError "missing"), w)
  end.

End Store.

(** ** HTTP through [requests] *)

Section Http.
Context {R T : Type} (http : R → request → (exn + response) * R).
#[local] Abbreviation world := (world R T).

(** [requests.request(method, url, ...)]: the service answers or the
    library raises. *)
Definition requests_request (rq : request) : prog world response :=
  call (EvRequest rq) (λ r, http r rq).

(** [int(response.headers.get('Retry-After', dflt))] *)
Definition int_retry_after (dflt : Z) (resp : response) : outcome Z :=
  match retry_after resp with
  | None => Ok dflt
  | Some (IntText n) => Ok n
  | Some (OtherText _) => Raise ValueError
  end.

(** [response.raise_for_status()]: raises for a 4xx or 5xx status only. *)
Definition raise_for_status (resp : response) : outcome () :=
  if (400 <=? status_code resp) && (status_code resp <? 600)
  then Raise (HTTPError resp) else Ok ().

(** [response.json()] *)
Definition response_json (resp : response) : outcome json :=
  match content resp with
  | Document doc => Ok doc
  | NoContent | Malformed _ => Raise JSONDecodeError
  end.

(** [bool(response.text)] *)
Definition response_text (resp : response) : bool :=
  match content resp with NoContent => false | _ => true end.

End Http.

(** ** hubspot.py *)

Module HubSpot.
Import HubSpotFlatten.

Definition BASE_URL : string := "https://api.hubapi.com".

Record HubSpotClient := { access_token : string }.

Definition headers (self : HubSpotClient) : list (string * string) :=
  [("Authorization", "Bearer " +:+ access_token self);
   ("Content-Type", "application/json")].

(** The keyword arguments [get], [post] and [patch] pass on. *)
Record kwargs := { kw_params : option (gmap string json); kw_json : option json }.

Section Client.
Context {R T : Type} (http : R → request → (exn + response) * R).
#[local] Abbreviation world := (world R T).

(** What [_request] does with a response that is not a 429. *)
Definition finish (resp : response) : outcome json :=
  raise_for_status resp;;
  if response_text resp then response_json resp else Ok (JDict ∅).

Fixpoint _request (fuel : nat) (self : HubSpotClient) (method endpoint : string)
    (kw : kwargs) : prog world json :=
  match fuel with
  | O => out_of_fuel
  | S fuel' =>
      let url := BASE_URL +:+ endpoint in
      response ← requests_request http
        {| rq_method := method; rq_url := url; rq_headers := headers self;
           rq_params := kw_params kw; rq_json := kw_json kw |};
      if status_code response =? 429 then
        retry_after ← lift (int_retry_after 10 response);
        print "Rate limited. Waiting {retry_after}s..." [PInt retry_after];;
        sleep retry_after;;
        _request fuel' self method endpoint kw
      else
        lift (finish response)
  end.

Definition get (fuel : nat) (self : HubSpotClient) (endpoint : string)
    (params : option (gmap string json)) : prog world json :=
  _request fuel self "GET" endpoint {| kw_params := params; kw_json := None |}.

Definition post (fuel : nat) (self : HubSpotClient) (endpoint : string)
    (data : option json) : prog world json :=
  _request fuel self "POST" endpoint {| kw_params := None; kw_json := data |}.

Definition patch (fuel : nat) (self : HubSpotClient) (endpoint : string)
    (data : option json) : prog world json :=
  _request fuel self "PATCH" endpoint {| kw_params := None; kw_json := data |}.

(** [properties or default] *)
Definition or_default (properties : option (list string)) (dflt : list string)
    : list string :=
  match properties with
  | Some (p :: ps) => p :: ps
  | Some [] | None => dflt
  end.

(** The query string of one listing call. *)
Definition listing_params (limit : Z) (properties : list string) (after : json)
    : gmap string json :=
  let params : gmap string json :=
    <["properties" := JStr (String.concat "," properties)]>
      (<["limit" := JInt limit]> ∅) in
  if truthy after then <["after" := after]> params else params.

(** The [while True] loop the three [get_all_*] methods share, entered with
    the objects fetched so far and the cursor to pass. *)
Fixpoint fetch_all (fuel : nat) (self : HubSpotClient) (endpoint noun : string)
    (properties : list string) (limit : Z) (all_objects : list json) (after : json)
    : prog world (list json) :=
  match fuel with
  | O => out_of_fuel
  | S fuel' =>
      let params := listing_params limit properties after in
      result ← get fuel self endpoint (Some params);
      results ← lift (py_get result "results" (JList []));
      all_objects ← lift (list_extend all_objects results);
      paging ← lift (py_get result "paging" (JDict ∅));
      next ← lift (py_get paging "next" (JDict ∅));
      after ← lift (py_get next "after" JNull);
      if negb (truthy after) then mret all_objects
      else
        print ("  Fetched {len(all_" +:+ noun +:+ ")} " +:+ noun +:+ "...")
              [PInt (Z.of_nat (length all_objects))];;
        fetch_all fuel' self endpoint noun properties limit all_objects after
  end.

Definition get_all_contacts (fuel : nat) (self : HubSpotClient)
    (properties : option (list string)) (limit : Z) : prog world (list json) :=
  let properties := or_default properties
    ["email"; "firstname"; "lastname"; "phone"; "company"; "lifecyclestage";
     "hs_lead_status"; "createdate"; "lastmodifieddate"] in
  fetch_all fuel self "/crm/v3/objects/contacts" "contacts" properties limit [] JNull.

Definition get_all_companies (fuel : nat) (self : HubSpotClient)
    (properties : option (list string)) (limit : Z) : prog world (list json) :=
  let properties := or_default properties
    ["name"; "domain"; "industry"; "numberofemployees"; "annualrevenue"; "city";
     "state"; "country"; "createdate"; "lastmodifieddate"] in
  fetch_all fuel self "/crm/v3/objects/companies" "companies" properties limit [] JNull.

Definition get_all_deals (fuel : nat) (self : HubSpotClient)
    (properties : option (list string)) (limit : Z) : prog world (list json) :=
  let properties := or_default properties
    ["dealname"; "amount"; "dealstage"; "pipeline"; "closedate"; "createdate";
     "hs_lastmodifieddate"; "hubspot_owner_id"] in
  fetch_all fuel self "/crm/v3/objects/deals" "deals" properties limit [] JNull.

End Client.

Section Loader.
Context {R T : Type} (duckdb : engine T).
#[local] Abbreviation world := (world R T).

(** [[flatten_hubspot_object(obj) for obj in data]] *)
Fixpoint flatten_all (data : list json) : outcome (list (gmap string json)) :=
  match data with
  | [] => Ok []
  | obj :: rest =>
      flat ← flatten_hubspot_object obj;
      flats ← flatten_all rest;
      Ok (flat :: flats)
  end.

Definition save_to_duckdb (data : list json) (table_name : string) : prog world () :=
  match data with
  | [] => print "  No data to save for {table_name}" [PStr table_name]
  | _ :: _ =>
      mkdir DATA_DIR;;
      flat_data ← lift (flatten_all data);
      let json_path := in_data_dir (table_name +:+ ".json") in
      json_dump (JList (JDict <$> flat_data)) json_path;;
      drop_table_if_exists table_name;;
      create_table_as_read_json duckdb table_name json_path;;
      count ← select_count duckdb table_name;
      print "  Saved {count} rows to {table_name}" [PInt count; PStr table_name];;
      unlink json_path
  end.

End Loader.
End HubSpot.

(** ** sync_posthog.py *)

Module PostHog.

(** [get_config()], once [main] has checked the key and the project. *)
Record config := { api_key : string; project_id : string; host : string }.

(** [xs[:n]]: a negative [n] counts from the end. *)
Definition slice_to {A} (xs : list A) (n : Z) : list A :=
  if 0 <=? n then take (Z.to_nat n) xs
  else take (length xs - Z.to_nat (- n))%nat xs.

Section Client.
Context {R T : Type} (http : R → request → (exn + response) * R).
#[local] Abbreviation world := (world R T).

(** What the client does with a response that is not a 429. *)
Definition finish (resp : response) : outcome json :=
  raise_for_status resp;;
  response_json resp.

Fixpoint make_request (fuel : nat) (config : config) (endpoint : string)
    (params : option (gmap string json)) (method : string) (json_data : option json)
    : prog world json :=
  match fuel with
  | O => out_of_fuel
  | S fuel' =>
      let url := host config +:+ "/api/projects/" +:+ project_id config
                 +:+ "/" +:+ endpoint in
      let headers := [("Authorization", "Bearer " +:+ api_key config)] in
      response ← requests_request http
        {| rq_method := method; rq_url := url; rq_headers := headers;
           rq_params := params; rq_json := json_data |};
      if status_code response =? 429 then
        retry_after ← lift (int_retry_after 60 response);
        print "Rate limited. Waiting {retry_after} seconds..." [PInt retry_after];;
        sleep retry_after;;
        make_request fuel' config endpoint params method json_data
      else
        lift (finish response)
  end.

(** [requests.get(next_url, headers=...)], for whatever value the previous
    page carried under ['next']: only a string can be a URL. *)
Definition requests_get (next_url : json) (headers : list (string * string))
    : prog world response :=
  match next_url with
  | JStr url =>
      requests_request http
        {| rq_method := "GET"; rq_url := url; rq_headers := headers;
           rq_params := None; rq_json := None |}
  | _ => raise (RequestException "invalid URL")
  end.

(** The [while True] loop of [fetch_persons]. *)
Fixpoint fetch_persons_loop (fuel : nat) (config : config) (limit : Z)
    (all_persons : list json) (next_url : json) : prog world (list json) :=
  match fuel with
  | O => out_of_fuel
  | S fuel' =>
      data ←
        (if truthy next_url then
           response ← requests_get next_url
             [("Authorization", "Bearer " +:+ api_key config)];
           lift (finish response)
         else
           make_request fuel config "persons"
             (Some {["limit" := JInt (Z.min limit 100)]}) "GET" None);
      results ← lift (py_get data "results" (JList []));
      all_persons ← lift (list_extend all_persons results);
      next ← lift (py_get data "next" JNull);
      if (limit <=? Z.of_nat (length all_persons)) || negb (truthy next)
      then mret all_persons
      else
        next_url ← lift (py_index data "next");
        fetch_persons_loop fuel' config limit all_persons next_url
  end.

Definition fetch_persons (fuel : nat) (config : config) (limit : Z)
    : prog world (list json) :=
  all_persons ← fetch_persons_loop fuel config limit [] JNull;
  mret (slice_to all_persons limit).

End Client.

Section Loader.
Context {R T : Type} (duckdb : engine T).
#[local] Abbreviation world := (world R T).

Definition save_to_duckdb (data : json) (table_name : string) : prog world () :=
  mkdir DATA_DIR;;
  let json_path := in_data_dir (table_name +:+ ".json") in
  json_dump data json_path;;
  drop_table_if_exists table_name;;
  create_table_as_read_json duckdb table_name json_path;;
  count ← select_count duckdb table_name;
  print "Saved {count} rows to {table_name}" [PInt count; PStr table_name];;
  unlink json_path.

End Loader.
End PostHog.

(** ** sync_athena.py *)

Module Athena.

(** The two boto3 clients: what the query service answers to a submission
    and to a poll, and what the object store holds under a bucket and key.
    Each answer is the response dict, or the exception boto3 raises. *)
Record aws (R : Type) := Aws {
  start_query_execution : R → string → string → string → string → (exn + json) * R;
  get_query_execution : R → json → (exn + json) * R;
  download_file : R → string → string → (exn + string) * R
}.
Arguments start_query_execution {R}.
Arguments get_query_execution {R}.
Arguments download_file {R}.

(** [s.replace(old, new)] for a non-empty [old]: occurrences are replaced
    from the left, without overlap.  [skip] counts the characters of the
    occurrence just replaced that are still to be passed over. *)
Fixpoint str_replace (old new : string) (skip : nat) (s : string) : string :=
  match s with
  | EmptyString => EmptyString
  | String c rest =>
      match skip with
      | S k => str_replace old new k rest
      | O =>
          if String.prefix old s
          then new +:+ str_replace old new (String.length old - 1) rest
          else String c (str_replace old new 0 rest)
      end
  end.

(** [s.split('/', 1)] *)
Fixpoint split_once (sep : ascii) (s : string) : list string :=
  match s with
  | EmptyString => [EmptyString]
  | String c rest =>
      if Ascii.eqb c sep then [EmptyString; rest]
      else match split_once sep rest with
           | h :: t => String c h :: t
           | [] => []
           end
  end.

(** [parts[i]] *)
Definition list_index {A} (parts : list A) (i : nat) : outcome A :=
  match parts !! i with Some x => Ok x | None => Raise IndexError end.

(** [csv_files[name] = path] on an insertion-ordered dict. *)
Fixpoint dict_set (name path : string) (d : list (string * string))
    : list (string * string) :=
  match d with
  | [] => [(name, path)]
  | (k, v) :: rest =>
      if String.eqb k name then (k, path) :: rest
      else (k, v) :: dict_set name path rest
  end.

(** [state in ('SUCCEEDED', 'FAILED', 'CANCELLED')] *)
Definition is_terminal (state : json) : bool :=
  match state with
  | JStr s => bool_decide (s ∈ ["SUCCEEDED"; "FAILED"; "CANCELLED"])
  | _ => false
  end.

(** [state == 'SUCCEEDED'] *)
Definition is_succeeded (state : json) : bool :=
  match state with JStr s => String.eqb s "SUCCEEDED" | _ => false end.

Section Runner.
Context {R T : Type} (boto3 : aws R) (duckdb : engine T).
#[local] Abbreviation world := (world R T).

Definition run_athena_query (query database workgroup output_location : string)
    : prog world json :=
  response ← call (EvStartQuery query database workgroup output_location)
    (λ r, start_query_execution boto3 r query database workgroup output_location);
  lift (py_index response "QueryExecutionId").

Fixpoint wait_for_query (fuel : nat) (execution_id : json) (poll_interval : Z)
    : prog world json :=
  match fuel with
  | O => out_of_fuel
  | S fuel' =>
      response ← call (EvGetQuery execution_id)
        (λ r, get_query_execution boto3 r execution_id);
      execution ← lift (py_index response "QueryExecution");
      status ← lift (py_index execution "Status");
      state ← lift (py_index status "State");
      if is_terminal state then mret execution
      else
        sleep poll_interval;;
        wait_for_query fuel' execution_id poll_interval
  end.

(** [s3_client.download_file(bucket, key, dest)]: the file appears only when
    the object has been fetched. *)
Definition s3_download_file (bucket key dest : string) : prog world () :=
  data ← call (EvDownload bucket key dest) (λ r, download_file boto3 r bucket key);
  write_file dest (Blob data).

Definition download_results (s3_uri : json) (local_path : string) : prog world () :=
  match s3_uri with
  | JStr uri =>
      let parts := split_once "/" (str_replace "s3://" "" 0 uri) in
      bucket ← lift (list_index parts 0);
      key ← lift (list_index parts 1);
      s3_download_file bucket key local_path
  | _ => raise AttributeError
  end.

Definition sync_to_duckdb_table (table_name csv_path : string) : prog world () :=
  print "Loading {table_name} from {csv_path}" [PStr table_name; PStr csv_path];;
  drop_table_if_exists table_name;;
  create_table_as_read_csv duckdb table_name csv_path;;
  count ← select_count duckdb table_name;
  print "  Loaded {count} rows" [PInt count].

(** The [for] loop of [sync_to_duckdb]. *)
Fixpoint sync_to_duckdb_loop (items : list (string * string)) : prog world () :=
  match items with
  | [] => mret ()
  | (table_name, csv_path) :: rest =>
      sync_to_duckdb_table table_name csv_path;;
      sync_to_duckdb_loop rest
  end.

Definition sync_to_duckdb (csv_files : list (string * string)) : prog world () :=
  mkdir DATA_DIR;;
  sync_to_duckdb_loop csv_files.

(** The [try] block of the query loop of [main], for one query. *)
Definition query_try (fuel : nat) (database workgroup output_location : string)
    (name sql : string) (csv_files : list (string * string))
    : prog world (list (string * string)) :=
  execution_id ← run_athena_query sql database workgroup output_location;
  print "  Execution ID: {execution_id}" [PJson execution_id];;
  result ← wait_for_query fuel execution_id 2;
  status ← lift (py_index result "Status");
  state ← lift (py_index status "State");
  if is_succeeded state then
    configuration ← lift (py_index result "ResultConfiguration");
    output_uri ← lift (py_index configuration "OutputLocation");
    let local_csv := in_data_dir (name +:+ ".csv") in
    download_results output_uri local_csv;;
    print "  Downloaded to {local_csv}" [PStr local_csv];;
    mret (dict_set name local_csv csv_files)
  else
    status ← lift (py_index result "Status");
    reason ← lift (py_get status "StateChangeReason" (JStr "Unknown error"));
    print "  Query failed: {reason}" [PJson reason];;
    mret csv_files.

(** One turn of the query loop: the [try] block under its [except]. *)
Definition query_turn (fuel : nat) (database workgroup output_location : string)
    (name sql : string) (csv_files : list (string * string))
    : prog world (list (string * string)) :=
  print "\nExecuting query: {name}" [PStr name];;
  try_except
    (query_try fuel database workgroup output_location name sql csv_files)
    (λ e, print "  Error: {e}" [PExn e];; mret csv_files).

(** The query loop of [main] over [queries.items()]. *)
Fixpoint run_queries (fuel : nat) (database workgroup output_location : string)
    (queries : list (string * string)) (csv_files : list (string * string))
    : prog world (list (string * string)) :=
  match queries with
  | [] => mret csv_files
  | (name, sql) :: rest =>
      csv_files ← query_turn fuel database workgroup output_location name sql csv_files;
      run_queries fuel database workgroup output_location rest csv_files
  end.

(** [main], from the point where the environment has been validated and the
    queries loaded and filtered. *)
Definition main (fuel : nat) (database workgroup output_location : string)
    (queries : list (string * string)) : prog world () :=
  match queries with
  | [] => print "No queries found to execute" [];; raise (SystemExit 0)
  | _ :: _ =>
      mkdir DATA_DIR;;
      csv_files ← run_queries fuel database workgroup output_location queries [];
      match csv_files with
      | [] => mret ()
      | _ :: _ =>
          print "\nLoading results into DuckDB..." [];;
          sync_to_duckdb csv_files;;
          print "Data synced to {DUCKDB_PATH}" []
      end
  end.

End Runner.
End Athena.

(** * Vocabulary of the statements *)

(** ** What a service does *)

Section Services.
Context {R : Type} (http : R → request → (exn + response) * R).

(** The service answers the successive sendings of [rq] with [resps]. *)
Inductive answers (rq : request) : R → list response → R → Prop :=
  | answers_nil r : answers rq r [] r
  | answers_cons r r' r'' resp resps :
      http r rq = (inr resp, r') →
      answers rq r' resps r'' →
      answers rq r (resp :: resps) r''.

End Services.

(** A 429 whose Retry-After, or the client's default [dflt] in its absence,
    is a number [n] of seconds. *)
Definition throttled (dflt : Z) (resp : response) (n : Z) : Prop :=
  status_code resp = 429 ∧ 0 ≤ n ∧
  (retry_after resp = Some (IntText n) ∨ (retry_after resp = None ∧ n = dflt)).

(** What a client does while it is being throttled: for each wait, the
    request, the line it prints and the sleep. *)
Fixpoint retry_events (template : string) (rq : request) (waits : list Z)
    : list event :=
  match waits with
  | [] => []
  | n :: ns =>
      EvRequest rq :: EvPrint template [PInt n] :: EvSleep n
        :: retry_events template rq ns
  end.

(** The requests and the sleeps among the events of a run. *)
Definition requests_of (evs : list event) : list request :=
  omap (λ e, match e with EvRequest rq => Some rq | _ => None end) evs.

Definition sleeps_of (evs : list event) : list Z :=
  omap (λ e, match e with EvSleep n => Some n | _ => None end) evs.

Definition downloads_of (evs : list event) : list (string * string * string) :=
  omap (λ e, match e with EvDownload b k d => Some (b, k, d) | _ => None end) evs.

(** The request [_request] sends. *)
Definition hubspot_request (self : HubSpot.HubSpotClient) (method endpoint : string)
    (kw : HubSpot.kwargs) : request :=
  {| rq_method := method; rq_url := HubSpot.BASE_URL +:+ endpoint;
     rq_headers := HubSpot.headers self;
     rq_params := HubSpot.kw_params kw; rq_json := HubSpot.kw_json kw |}.

(** The request [make_request] sends. *)
Definition posthog_request (config : PostHog.config) (endpoint : string)
    (params : option (gmap string json)) (method : string) (json_data : option json)
    : request :=
  {| rq_method := method;
     rq_url := PostHog.host config +:+ "/api/projects/" +:+ PostHog.project_id config
               +:+ "/" +:+ endpoint;
     rq_headers := [("Authorization", "Bearer " +:+ PostHog.api_key config)];
     rq_params := params; rq_json := json_data |}.

(** ** Rows *)

(** The row the flattener builds from the metadata of an object whose
    identifier is [oid], before it overlays the properties. *)
Definition metadata_row (obj : gmap string json) (oid : json) : gmap string json :=
  <["archived" := default (JBool false) (obj !! "archived")]>
    (<["updated_at" := default JNull (obj !! "updatedAt")]>
      (<["created_at" := default JNull (obj !! "createdAt")]>
        (<["id" := oid]> ∅))).

(** The object of the specification's example. *)
Definition colliding_object : gmap string json :=
  <["id" := JStr "1"]>
    (<["properties" := JDict (<["id" := JStr "should-not-win"]> ∅)]> ∅).

(** An object with an identifier whose ["properties"] entry is null. *)
Definition null_properties_object : gmap string json :=
  <["id" := JStr "1"]> (<["properties" := JNull]> ∅).

(** An object with no [archived] flag of its own and a property of that
    name. *)
Definition archived_property_object : gmap string json :=
  <["id" := JStr "1"]>
    (<["properties" := JDict {["archived" := JBool true]}]> ∅).

(** An object with nothing but an identifier. *)
Definition bare_object : gmap string json := <["id" := JStr "7"]> ∅.

(** ** Services for the examples *)

(** An endpoint that hands out a fixed sequence of responses, whatever it is
    asked, and refuses the connection once they are spent. *)
Definition scripted (R : Type) := list R.

Definition scripted_http (r : scripted response) (rq : request)
    : (exn + response) * scripted response :=
  match r with
  | [] => (inl (RequestException "connection refused"), [])
  | resp :: rest => (inr resp, rest)
  end.

(** A store that keeps what it reads as it is: its tables are the files. *)
Definition verbatim : engine file :=
  {| read_json_auto := λ doc, Some (JsonFile doc);
     read_csv_auto := λ data, Some (Blob data);
     row_count := λ t, match t with
                       | JsonFile (JList rows) => Z.of_nat (length rows)
                       | _ => 0
                       end |}.

Definition empty_world {R T} (r : R) : world R T :=
  World r ∅ ∅ ∅ [].

(** The responses of the examples. *)
Definition throttled_once : response :=
  {| status_code := 429; retry_after := Some (IntText 3); content := NoContent |}.

Definition a_payload : json :=
  JDict (<["results" := JList [JDict {["id" := JStr "42"]}]]>
           {["total" := JInt 1]}).

Definition ok_response : response :=
  {| status_code := 200; retry_after := None; content := Document a_payload |}.

Definition empty_ok_response : response :=
  {| status_code := 200; retry_after := None; content := NoContent |}.

Definition no_content_response : response :=
  {| status_code := 204; retry_after := None; content := NoContent |}.

Definition not_modified_response : response :=
  {| status_code := 304; retry_after := None; content := NoContent |}.

Definition not_found_response : response :=
  {| status_code := 404; retry_after := None; content := Malformed "not found" |}.

Definition a_client : HubSpot.HubSpotClient := {| HubSpot.access_token := "token" |}.

Definition a_config : PostHog.config :=
  {| PostHog.api_key := "key"; PostHog.project_id := "1";
     PostHog.host := "https://app.posthog.com" |}.

Definition no_kwargs : HubSpot.kwargs :=
  {| HubSpot.kw_params := None; HubSpot.kw_json := None |}.

(** A world whose service is a scripted endpoint and whose store is the
    verbatim one. *)
Definition serving (script : list response) : world (scripted response) file :=
  empty_world script.

(** A query service that names an execution after its query text and
    answers the polls from a script, and an object store that holds, under
    every bucket and key, a text naming them. *)
Definition scripted_aws : Athena.aws (scripted json) :=
  {| Athena.start_query_execution := λ r query _ _ _,
       (inr (JDict {["QueryExecutionId" := JStr query]}), r);
     Athena.get_query_execution := λ r _,
       match r with
       | [] => (inl (ClientError "no such execution"), [])
       | answer :: rest => (inr answer, rest)
       end;
     Athena.download_file := λ r bucket key,
       (inr (bucket +:+ "/" +:+ key), r) |}.

(** An execution in state [state], with the rest of its status [status] and
    its result location [location], and the answer to a poll that finds
    it. *)
Definition an_execution (state : string) (status : gmap string json)
    (location : string) : json :=
  JDict (<["Status" := JDict (<["State" := JStr state]> status)]>
          {["ResultConfiguration" := JDict {["OutputLocation" := JStr location]}]}).

Definition poll_answer (state : string) (status : gmap string json)
    (location : string) : json :=
  JDict {["QueryExecution" := an_execution state status location]}.

Definition polling (script : list json) : world (scripted json) file :=
  empty_world script.

(** ** Listings *)

(** The objects of a page, as the paginators read them. *)
Definition page_results (doc : json) : outcome json :=
  py_get doc "results" (JList []).

(** The cursor a CRM page carries, null when there is none. *)
Definition page_cursor (doc : json) : outcome json :=
  paging ← py_get doc "paging" (JDict ∅);
  next ← py_get paging "next" (JDict ∅);
  py_get next "after" JNull.

(** The query string of a CRM listing call: the page size, the properties
    wanted and, when a previous page carried one, its cursor. *)
Definition listing_query (limit : Z) (properties : list string)
    (cursor : option json) : gmap string json :=
  let first : gmap string json :=
    <["limit" := JInt limit]>
      {["properties" := JStr (String.concat "," properties)]} in
  match cursor with
  | None => first
  | Some after => <["after" := after]> first
  end.

(** The call of a CRM listing endpoint, with the cursor of the previous page
    when there is one. *)
Definition listing_request (self : HubSpot.HubSpotClient) (endpoint : string)
    (properties : list string) (limit : Z) (cursor : option json) : request :=
  {| rq_method := "GET";
     rq_url := "https://api.hubapi.com" +:+ endpoint;
     rq_headers := [("Authorization", "Bearer " +:+ HubSpot.access_token self);
                    ("Content-Type", "application/json")];
     rq_params := Some (listing_query limit properties cursor);
     rq_json := None |}.

(** The cursor the paginator holds for a cursor sent. *)
Definition loop_cursor (sent : option json) : json := default JNull sent.

(** The cursor a request carries. *)
Definition cursor_sent (rq : request) : option json :=
  rq_params rq ≫= (.!! "after").

(** A response that delivers the document [doc]: a 2xx with [doc] for
    body. *)
Definition delivers (resp : response) (doc : json) : Prop :=
  200 ≤ status_code resp < 300 ∧ content resp = Document doc.

(** The call for a page of persons: the first through [make_request], the
    later ones to the URL the previous page gave. *)
Definition persons_request (config : PostHog.config) (limit : Z)
    (next_url : option string) : request :=
  match next_url with
  | None =>
      posthog_request config "persons"
        (Some {["limit" := JInt (Z.min limit 100)]}) "GET" None
  | Some url =>
      {| rq_method := "GET"; rq_url := url;
         rq_headers := [("Authorization", "Bearer " +:+ PostHog.api_key config)];
         rq_params := None; rq_json := None |}
  end.

Definition url_value (next_url : option string) : json :=
  match next_url with None => JNull | Some url => JStr url end.

Section Listings.
Context {R : Type} (http : R → request → (exn + response) * R).

(** A walk of a CRM listing: each step is the cursor sent (none for the
    first page) and the page received for it; every page but the last
    carries the cursor of the next step, and the last carries none (or one
    that Python takes for false, which the paginator reads as none). *)
Inductive crm_listing (self : HubSpot.HubSpotClient) (endpoint : string)
    (properties : list string) (limit : Z)
    : R → option json → list (option json * list json) → R → Prop :=
  | crm_listing_last r r' sent resp doc page cursor :
      http r (listing_request self endpoint properties limit sent) = (inr resp, r') →
      delivers resp doc →
      page_results doc = Ok (JList page) →
      page_cursor doc = Ok cursor →
      truthy cursor = false →
      crm_listing self endpoint properties limit r sent [(sent, page)] r'
  | crm_listing_next r r' r'' sent resp doc page cursor steps :
      http r (listing_request self endpoint properties limit sent) = (inr resp, r') →
      delivers resp doc →
      page_results doc = Ok (JList page) →
      page_cursor doc = Ok cursor →
      truthy cursor = true →
      crm_listing self endpoint properties limit r' (Some cursor) steps r'' →
      crm_listing self endpoint properties limit r sent ((sent, page) :: steps) r''.

(** A walk of the persons listing from [next_url]: each step is the URL
    asked (none for the first page) and the page received; every page but
    the last gives the URL of the next step, and the last carries [final]
    under ['next']. *)
Inductive persons_walk (config : PostHog.config) (limit : Z)
    : R → option string → list (option string * list json) → json → R → Prop :=
  | persons_walk_last r r' next_url resp doc page final :
      http r (persons_request config limit next_url) = (inr resp, r') →
      PostHog.finish resp = Ok doc →
      page_results doc = Ok (JList page) →
      py_get doc "next" JNull = Ok final →
      persons_walk config limit r next_url [(next_url, page)] final r'
  | persons_walk_next r r' r'' next_url resp doc page url steps final :
      http r (persons_request config limit next_url) = (inr resp, r') →
      PostHog.finish resp = Ok doc →
      page_results doc = Ok (JList page) →
      py_get doc "next" JNull = Ok (JStr url) →
      url ≠ "" →
      persons_walk config limit r' (Some url) steps final r'' →
      persons_walk config limit r next_url ((next_url, page) :: steps) final r''.

(** A walk of the whole persons listing: each step is the URL asked (none
    for the first page) and the page delivered for it; every page but the
    last gives the URL of the next step, and the last gives none. *)
Inductive persons_listing (config : PostHog.config) (limit : Z)
    : R → option string → list (option string * list json) → R → Prop :=
  | persons_listing_last r r' next_url resp doc page final :
      http r (persons_request config limit next_url) = (inr resp, r') →
      delivers resp doc →
      page_results doc = Ok (JList page) →
      py_get doc "next" JNull = Ok final →
      truthy final = false →
      persons_listing config limit r next_url [(next_url, page)] r'
  | persons_listing_next r r' r'' next_url resp doc page url steps :
      http r (persons_request config limit next_url) = (inr resp, r') →
      delivers resp doc →
      page_results doc = Ok (JList page) →
      py_get doc "next" JNull = Ok (JStr url) →
      url ≠ "" →
      persons_listing config limit r' (Some url) steps r'' →
      persons_listing config limit r next_url ((next_url, page) :: steps) r''.

End Listings.

(** The objects of a walk, page after page. *)
Definition objects_of {A} (steps : list (A * list json)) : list json :=
  concat (steps.*2).

(** What a CRM paginator does along a walk: a request per step and, between
    two steps, the progress line with the count so far. *)
Fixpoint crm_events (request_for : option json → request) (template : string)
    (count : nat) (steps : list (option json * list json)) : list event :=
  match steps with
  | [] => []
  | (after, page) :: rest =>
      EvRequest (request_for after) ::
      match rest with
      | [] => []
      | _ :: _ =>
          EvPrint template [PInt (Z.of_nat (count + length page))]
            :: crm_events request_for template (count + length page)%nat rest
      end
  end.

(** The properties [get_all_contacts] asks for. *)
Definition contact_properties (properties : option (list string)) : list string :=
  match properties with
  | Some (p :: ps) => p :: ps
  | Some [] | None =>
      ["email"; "firstname"; "lastname"; "phone"; "company"; "lifecyclestage";
       "hs_lead_status"; "createdate"; "lastmodifieddate"]
  end.

(** Two pages of two objects each, as either service would send them. *)
Definition object (oid : string) : json := JDict {["id" := JStr oid]}.

Definition crm_page_1 : response :=
  {| status_code := 200; retry_after := None;
     content := Document (JDict
       (<["results" := JList [object "1"; object "2"]]>
         {["paging" := JDict {["next" := JDict {["after" := JStr "2"]}]}]})) |}.

Definition crm_page_2 : response :=
  {| status_code := 200; retry_after := None;
     content := Document (JDict {["results" := JList [object "3"; object "4"]]}) |}.

Definition persons_page_1 : response :=
  {| status_code := 200; retry_after := None;
     content := Document (JDict
       (<["results" := JList [object "1"; object "2"]]>
         {["next" := JStr "https://app.posthog.com/api/projects/1/persons?offset=2"]})) |}.

Definition persons_page_2 : response :=
  {| status_code := 200; retry_after := None;
     content := Document (JDict
       (<["results" := JList [object "3"; object "4"]]> {["next" := JNull]})) |}.

(** A last page that still advertises a next one. *)
Definition persons_page_2_more : response :=
  {| status_code := 200; retry_after := None;
     content := Document (JDict
       (<["results" := JList [object "3"; object "4"]]>
         {["next" := JStr "https://app.posthog.com/api/projects/1/persons?offset=4"]})) |}.

(** The walks of those pages. *)
Definition two_crm_pages : list (option json * list json) :=
  [(None, [object "1"; object "2"]); (Some (JStr "2"), [object "3"; object "4"])].

(** A CRM endpoint that answers by the cursor it is sent: the first page
    when there is none, the second for the cursor of the first, and a 404
    for any other. *)
Definition contacts_endpoint (r : ()) (rq : request) : (exn + response) * () :=
  match cursor_sent rq with
  | None => (inr crm_page_1, ())
  | Some (JStr cursor) =>
      if String.eqb cursor "2" then (inr crm_page_2, ())
      else (inr not_found_response, ())
  | Some _ => (inr not_found_response, ())
  end.

(** A persons endpoint that answers by the URL it is asked. *)
Definition persons_endpoint (r : ()) (rq : request) : (exn + response) * () :=
  if String.eqb (rq_url rq) "https://app.posthog.com/api/projects/1/persons"
  then (inr persons_page_1, ())
  else if String.eqb (rq_url rq)
            "https://app.posthog.com/api/projects/1/persons?offset=2"
  then (inr persons_page_2, ())
  else (inr not_found_response, ()).

Definition two_persons_pages : list (option string * list json) :=
  [(None, [object "1"; object "2"]);
   (Some "https://app.posthog.com/api/projects/1/persons?offset=2",
    [object "3"; object "4"])].

(** ** Query executions *)

(** The state of an execution, as the runner reads it. *)
Definition query_state (execution : json) : outcome json :=
  status ← py_index execution "Status";
  py_index status "State".

(** The result location an execution reports. *)
Definition result_location (execution : json) : outcome json :=
  configuration ← py_index execution "ResultConfiguration";
  py_index configuration "OutputLocation".

(** The reason an execution gives for its state, ["Unknown error"] when its
    status carries none. *)
Definition failure_reason (execution : json) : outcome json :=
  status ← py_index execution "Status";
  py_get status "StateChangeReason" (JStr "Unknown error").

(** The bucket and key [download_results] reads off a location. *)
Definition s3_location (uri : string) : option (string * string) :=
  let parts := Athena.split_once "/" (Athena.str_replace "s3://" "" 0 uri) in
  match parts !! 0%nat, parts !! 1%nat with
  | Some bucket, Some key => Some (bucket, key)
  | _, _ => None
  end.

(** Where the runner puts the result of the query [name]. *)
Definition csv_path (name : string) : string := "data/" +:+ name +:+ ".csv".

(** The states in which an execution is over. *)
Definition terminal (state : json) : Prop :=
  state = JStr "SUCCEEDED" ∨ state = JStr "FAILED" ∨ state = JStr "CANCELLED".

Section Executions.
Context {R : Type} (boto3 : Athena.aws R).

(** The service accepts the query and names its execution [execution_id]. *)
Definition submitted (query database workgroup output_location : string)
    (r : R) (execution_id : json) (r' : R) : Prop :=
  ∃ response,
    Athena.start_query_execution boto3 r query database workgroup output_location
      = (inr response, r') ∧
    py_index response "QueryExecutionId" = Ok execution_id.

(** The service answers [n] polls with a state that is not terminal, and
    the next with the terminal [execution]. *)
Inductive polls (execution_id : json) : R → nat → json → R → Prop :=
  | polls_done r r' response execution state :
      Athena.get_query_execution boto3 r execution_id = (inr response, r') →
      py_index response "QueryExecution" = Ok execution →
      query_state execution = Ok state →
      terminal state →
      polls execution_id r 0 execution r'
  | polls_wait r r' r'' response execution state n final :
      Athena.get_query_execution boto3 r execution_id = (inr response, r') →
      py_index response "QueryExecution" = Ok execution →
      query_state execution = Ok state →
      ¬ terminal state →
      polls execution_id r' n final r'' →
      polls execution_id r (S n) final r''.

End Executions.

(** What the runner does while it waits: [n] polls each followed by a
    sleep, and the poll that finds the terminal state. *)
Fixpoint poll_events (execution_id : json) (poll_interval : Z) (n : nat)
    : list event :=
  match n with
  | O => [EvGetQuery execution_id]
  | S n' =>
      EvGetQuery execution_id :: EvSleep poll_interval
        :: poll_events execution_id poll_interval n'
  end.

Definition polls_of (evs : list event) : list json :=
  omap (λ e, match e with EvGetQuery eid => Some eid | _ => None end) evs.

(** What one turn of the query loop does before it looks at the terminal
    state. *)
Definition turn_events (name sql database workgroup output_location : string)
    (execution_id : json) (n : nat) : list event :=
  [EvPrint "\nExecuting query: {name}" [PStr name];
   EvStartQuery sql database workgroup output_location;
   EvPrint "  Execution ID: {execution_id}" [PJson execution_id]]
  ++ poll_events execution_id 2 n.

(** The polls of the examples: a query that is cancelled at once, and one
    that is seen running before it succeeds. *)
Definition cancelled_answer : json :=
  poll_answer "CANCELLED" {["StateChangeReason" := JStr "Query was cancelled by user"]}
    "s3://results/cancelled.csv".

Definition failed_answer : json :=
  poll_answer "FAILED" {["StateChangeReason" := JStr "SYNTAX_ERROR: line 1:8"]}
    "s3://results/failed.csv".

Definition running_answer : json :=
  poll_answer "RUNNING" ∅ "s3://results/out/usage.csv".

Definition succeeded_answer : json :=
  poll_answer "SUCCEEDED" ∅ "s3://results/out/usage.csv".

(** Whether the character [c] occurs in [s]. *)
Fixpoint occurs (c : ascii) (s : string) : bool :=
  match s with
  | EmptyString => false
  | String c' rest => Ascii.eqb c' c || occurs c rest
  end.

(** ** What a program leaves alone *)

Section Frames.
Context {R T : Type}.
#[local] Abbreviation world := (world R T).

(** The files, directories and tables are those of [w]. *)
Definition same_local (w w' : world) : Prop :=
  files w' = files w ∧ dirs w' = dirs w ∧ tables w' = tables w.

(** A program that never touches them, and one that touches them only when
    it returns. *)
Definition keeps {A} (m : prog world A) : Prop :=
  ∀ w o w', m w = (o, w') → same_local w w'.

Definition keeps_unless_ok {A} (m : prog world A) : Prop :=
  ∀ w o w', m w = (o, w') → (∀ a, o ≠ Ok a) → same_local w w'.

Definition always_ok {A} (m : prog world A) : Prop :=
  ∀ w, ∃ a w', m w = (Ok a, w').

End Frames.

(** * Properties *)

(** ** Running programs *)

Section Run.
Context {W : Type}.

Lemma run_bind {A B} (m : prog W A) (k : A → prog W B) (w : W) :
  (m ≫= k) w =
    match m w with
    | (Ok a, w') => k a w'
    | (Raise e, w') => (Raise e, w')
    | (OutOfFuel, w') => (OutOfFuel, w')
    | (DuckTyped, w') => (DuckTyped, w')
    end.
Proof. reflexivity. Qed.

Lemma run_bind_ok {A B} (m : prog W A) (k : A → prog W B) (w w' : W) (a : A) :
  m w = (Ok a, w') → (m ≫= k) w = k a w'.
Proof. intros H. by rewrite run_bind, H. Qed.

Lemma run_lift_bind {A B} (o : outcome A) (k : A → prog W B) (w : W) :
  (lift o ≫= k) w =
    match o with
    | Ok a => k a w
    | Raise e => (Raise e, w)
    | OutOfFuel => (OutOfFuel, w)
    | DuckTyped => (DuckTyped, w)
    end.
Proof. rewrite run_bind. unfold lift. by destruct o. Qed.

End Run.

(** ** The record flattener *)

Section FlattenProps.
Import HubSpotFlatten.

Lemma flatten_run (obj : gmap string json) (i : json) (p : gmap string json) :
  obj !! "id" = Some i →
  property_bag obj = Some p →
  flatten_hubspot_object (JDict obj) = Ok (p ∪ metadata_row obj i).
Proof.
  intros Hid Hp. unfold flatten_hubspot_object, property_bag, metadata_row in *.
  cbn. rewrite Hid. cbn.
  destruct (obj !! "properties") as [[]|]; by simplify_eq.
Qed.

Lemma dom_metadata_row (obj : gmap string json) (i : json) :
  dom (metadata_row obj i) = metadata_keys.
Proof.
  unfold metadata_row, metadata_keys. rewrite !dom_insert_L, dom_empty_L.
  set_solver.
Qed.

(** C1: for an object with an identifier and a property bag [p], the row
    is the property bag laid over the metadata row: its keys are the four
    metadata keys together with the keys of [p], every key of [p] carries
    the value [p] gives it (also when it is one of the metadata keys), and
    every other key carries its metadata value. *)
Theorem flatten_properties_win (obj : gmap string json) (i : json)
    (p : gmap string json) :
  obj !! "id" = Some i →
  property_bag obj = Some p →
  ∃ flat : gmap string json,
    flatten_hubspot_object (JDict obj) = Ok flat ∧
    flat = p ∪ metadata_row obj i ∧
    dom flat = metadata_keys ∪ dom p ∧
    (∀ k v, p !! k = Some v → flat !! k = Some v) ∧
    (∀ k, p !! k = None → flat !! k = metadata_row obj i !! k).
Proof.
  intros Hid Hp. exists (p ∪ metadata_row obj i).
  split; [by apply flatten_run|]. split; [done|]. split; [|split].
  - rewrite dom_union_L, dom_metadata_row. apply (comm_L (∪)).
  - intros k v Hk. by apply lookup_union_Some_l.
  - intros k Hk. by apply lookup_union_r.
Qed.

Lemma flatten_properties_win_witness :
  ∃ flat : gmap string json,
    flatten_hubspot_object (JDict colliding_object) = Ok flat ∧
    flat !! "id" = Some (JStr "should-not-win") ∧
    dom flat = metadata_keys.
Proof.
  destruct (flatten_properties_win colliding_object (JStr "1")
              (<["id" := JStr "should-not-win"]> ∅))
    as (flat & Hrun & _ & Hdom & Hwin & _); [reflexivity | reflexivity |].
  exists flat. split; [exact Hrun|]. split.
  - apply Hwin. reflexivity.
  - rewrite Hdom. unfold metadata_keys. rewrite dom_insert_L, dom_empty_L.
    set_solver.
Defined.

Lemma flatten_raises_with_id :
  (is_Some (null_properties_object !! "id") ∧
   flatten_hubspot_object (JDict null_properties_object) = Raise TypeError) ∧
  (archived_property_object !! "archived" = None ∧
   ∃ flat : gmap string json,
     flatten_hubspot_object (JDict archived_property_object) = Ok flat ∧
     flat !! "archived" = Some (JBool true)).
Proof.
  split; [split; [by eexists | reflexivity]|].
  split; [reflexivity|]. eexists. split; reflexivity.
Qed.

(** C9, amended: without ["id"] the flattener raises [KeyError]; with
    ["id"] present and the ["properties"] entry absent or a mapping it
    returns a row, in which a missing [createdAt] or [updatedAt] gives a
    null and a missing [archived] gives [False], unless the property bag
    has a value of its own under that key of the row, which is then the
    row's.  The flattener is a function from values to outcomes: it has no
    world to act on. *)
Theorem flatten_partiality (obj : gmap string json) :
  (obj !! "id" = None →
     flatten_hubspot_object (JDict obj) = Raise (KeyError "id")) ∧
  (∀ i p, obj !! "id" = Some i → property_bag obj = Some p →
     ∃ flat : gmap string json,
       flatten_hubspot_object (JDict obj) = Ok flat ∧
       (obj !! "createdAt" = None →
          flat !! "created_at" = Some (default JNull (p !! "created_at"))) ∧
       (obj !! "updatedAt" = None →
          flat !! "updated_at" = Some (default JNull (p !! "updated_at"))) ∧
       (obj !! "archived" = None →
          flat !! "archived" = Some (default (JBool false) (p !! "archived")))).
Proof.
  split.
  - intros Hid. unfold flatten_hubspot_object. cbn. by rewrite Hid.
  - intros i p Hid Hp. exists (p ∪ metadata_row obj i).
    split; [by apply flatten_run|].
    unfold metadata_row.
    repeat split; intros Ho; rewrite lookup_union, Ho;
      match goal with |- context [p !! ?k] => destruct (p !! k) end; done.
Qed.

Lemma flatten_partiality_witness :
  flatten_hubspot_object (JDict ∅) = Raise (KeyError "id") ∧
  (∃ flat : gmap string json,
     flatten_hubspot_object (JDict bare_object) = Ok flat ∧
     flat !! "created_at" = Some JNull ∧
     flat !! "updated_at" = Some JNull ∧
     flat !! "archived" = Some (JBool false)) ∧
  (∃ flat : gmap string json,
     flatten_hubspot_object (JDict archived_property_object) = Ok flat ∧
     flat !! "created_at" = Some JNull ∧
     flat !! "archived" = Some (JBool true)).
Proof.
  split; [|split].
  - apply (proj1 (flatten_partiality ∅)). reflexivity.
  - destruct (proj2 (flatten_partiality bare_object) (JStr "7") ∅)
      as (flat & Hrun & Hc & Hu & Ha); [reflexivity | reflexivity |].
    exists flat. split; [exact Hrun|].
    split; [by apply Hc | split; [by apply Hu | by apply Ha]].
  - destruct (proj2 (flatten_partiality archived_property_object) (JStr "1")
                {["archived" := JBool true]})
      as (flat & Hrun & Hc & _ & Ha); [reflexivity | reflexivity |].
    exists flat. split; [exact Hrun|].
    split; [by apply Hc | by apply Ha].
Defined.

End FlattenProps.

(** ** Rate limiting and status handling (both clients) *)

Section Backoff.
Context {R T : Type} (http : R → request → (exn + response) * R).
#[local] Abbreviation world := (world R T).
#[local] Abbreviation hs_request := (HubSpot._request (T:=T) http).
#[local] Abbreviation ph_request := (PostHog.make_request (T:=T) http).

Lemma hubspot_request_S fuel self method endpoint kw :
  hs_request (S fuel) self method endpoint kw =
    (response ← requests_request http (hubspot_request self method endpoint kw);
     if status_code response =? 429 then
       retry_after ← lift (int_retry_after 10 response);
       print "Rate limited. Waiting {retry_after}s..." [PInt retry_after];;
       sleep retry_after;;
       hs_request fuel self method endpoint kw
     else lift (HubSpot.finish response)).
Proof. reflexivity. Qed.

Lemma posthog_request_S fuel config endpoint params method json_data :
  ph_request (S fuel) config endpoint params method json_data =
    (response ← requests_request http
        (posthog_request config endpoint params method json_data);
     if status_code response =? 429 then
       retry_after ← lift (int_retry_after 60 response);
       print "Rate limited. Waiting {retry_after} seconds..." [PInt retry_after];;
       sleep retry_after;;
       ph_request fuel config endpoint params method json_data
     else lift (PostHog.finish response)).
Proof. reflexivity. Qed.

Lemma answers_one rq r r' resp :
  http r rq = (inr resp, r') → answers http rq r ([] ++ [resp]) r'.
Proof. intros Hh. econstructor; [exact Hh | constructor]. Qed.

Lemma throttled_int dflt resp n :
  throttled dflt resp n →
  status_code resp = 429 ∧ int_retry_after dflt resp = Ok n ∧ 0 ≤ n.
Proof.
  unfold throttled, int_retry_after.
  intros (Hs & Hn & [-> | [-> ->]]); done.
Qed.

(** The step both clients take on a response: a throttled one is waited
    out, any other is finished. *)
Ltac throttled_step Hh Hs Hi n :=
  rewrite run_bind; unfold requests_request, call; rewrite Hh;
  apply Z.eqb_eq in Hs; rewrite Hs, run_lift_bind, Hi;
  rewrite run_bind; unfold print at 1, emit at 1;
  rewrite run_bind; unfold sleep;
  destruct (Z.ltb_spec n 0) as [|_]; [lia|]; unfold emit at 1.

Lemma hubspot_request_run fuel self method endpoint kw resps waits final r' (w : world) :
  let rq := hubspot_request self method endpoint kw in
  answers http rq (remote w) (resps ++ [final]) r' →
  Forall2 (throttled 10) resps waits →
  status_code final ≠ 429 →
  (length resps < fuel)%nat →
  hs_request fuel self method endpoint kw w =
    (HubSpot.finish final,
     World r' (files w) (dirs w) (tables w)
       (trace w ++ retry_events "Rate limited. Waiting {retry_after}s..." rq waits
                ++ [EvRequest rq])).
Proof.
  intros rq Hans Hthr Hfin Hfuel.
  revert fuel waits w Hans Hthr Hfuel.
  induction resps as [|resp resps IH]; intros fuel waits w Hans Hthr Hfuel.
  - inversion Hthr; subst. inversion Hans as [|? ? ? ? ? Hh Hrest]; subst.
    inversion Hrest; subst.
    destruct fuel as [|fuel]; [simpl in Hfuel; lia|].
    rewrite hubspot_request_S. fold rq.
    rewrite run_bind. unfold requests_request, call. rewrite Hh.
    apply Z.eqb_neq in Hfin. rewrite Hfin. reflexivity.
  - inversion Hthr as [|? n ? ns Hth Hthr']; subst.
    destruct (throttled_int _ _ _ Hth) as (Hs & Hi & Hn).
    inversion Hans as [|? r1 ? ? ? Hh Hrest]; subst.
    destruct fuel as [|fuel]; [simpl in Hfuel; lia|].
    rewrite hubspot_request_S. fold rq.
    throttled_step Hh Hs Hi n.
    erewrite IH; [|exact Hrest|exact Hthr'|simpl in Hfuel; lia].
    cbn. f_equal. f_equal. rewrite <- !app_assoc. reflexivity.
Qed.

Lemma posthog_request_run fuel config endpoint params method json_data
    resps waits final r' (w : world) :
  let rq := posthog_request config endpoint params method json_data in
  answers http rq (remote w) (resps ++ [final]) r' →
  Forall2 (throttled 60) resps waits →
  status_code final ≠ 429 →
  (length resps < fuel)%nat →
  ph_request fuel config endpoint params method json_data w =
    (PostHog.finish final,
     World r' (files w) (dirs w) (tables w)
       (trace w ++ retry_events "Rate limited. Waiting {retry_after} seconds..." rq waits
                ++ [EvRequest rq])).
Proof.
  intros rq Hans Hthr Hfin Hfuel.
  revert fuel waits w Hans Hthr Hfuel.
  induction resps as [|resp resps IH]; intros fuel waits w Hans Hthr Hfuel.
  - inversion Hthr; subst. inversion Hans as [|? ? ? ? ? Hh Hrest]; subst.
    inversion Hrest; subst.
    destruct fuel as [|fuel]; [simpl in Hfuel; lia|].
    rewrite posthog_request_S. fold rq.
    rewrite run_bind. unfold requests_request, call. rewrite Hh.
    apply Z.eqb_neq in Hfin. rewrite Hfin. reflexivity.
  - inversion Hthr as [|? n ? ns Hth Hthr']; subst.
    destruct (throttled_int _ _ _ Hth) as (Hs & Hi & Hn).
    inversion Hans as [|? r1 ? ? ? Hh Hrest]; subst.
    destruct fuel as [|fuel]; [simpl in Hfuel; lia|].
    rewrite posthog_request_S. fold rq.
    throttled_step Hh Hs Hi n.
    erewrite IH; [|exact Hrest|exact Hthr'|simpl in Hfuel; lia].
    cbn. f_equal. f_equal. rewrite <- !app_assoc. reflexivity.
Qed.

Lemma requests_of_retry template rq waits :
  requests_of (retry_events template rq waits ++ [EvRequest rq]) =
    replicate (S (length waits)) rq.
Proof.
  induction waits as [|n ns IH]; [done|]. cbn. f_equal. exact IH.
Qed.

Lemma sleeps_of_retry template rq waits :
  sleeps_of (retry_events template rq waits ++ [EvRequest rq]) = waits.
Proof.
  induction waits as [|n ns IH]; [done|]. cbn. f_equal. exact IH.
Qed.

Lemma finish_never_429 (resp resp' : response) :
  status_code resp ≠ 429 →
  (HubSpot.finish resp = Raise (HTTPError resp') → status_code resp' ≠ 429) ∧
  (PostHog.finish resp = Raise (HTTPError resp') → status_code resp' ≠ 429).
Proof.
  intros Hs. unfold HubSpot.finish, PostHog.finish, raise_for_status, response_json.
  split; intros H; destruct (_ && _); cbn in H;
    destruct (content resp); try destruct (response_text resp);
    congruence.
Qed.

Lemma finish_document (final : response) (payload : json) :
  200 ≤ status_code final < 300 →
  content final = Document payload →
  HubSpot.finish final = Ok payload ∧ PostHog.finish final = Ok payload.
Proof.
  intros Hs Hc.
  unfold HubSpot.finish, PostHog.finish, raise_for_status, response_text,
    response_json.
  rewrite Hc. destruct (Z.leb_spec 400 (status_code final)); [lia|]. done.
Qed.

(** C3: a request that the service answers with any number of 429s, each
    with a Retry-After of [n] seconds or none at all ([n] is then 10 for the
    CRM client and 60 for the analytics client), and then with a response
    that is not a 429.  The client sends the same request once per response
    and sleeps the stated seconds after each 429 and at no other time.  When
    the last response is a 2xx with a document for body, the client returns
    that document; and whatever the last response, what the client raises is
    never an HTTP error for a 429. *)
Theorem rate_limit_backoff (fuel : nat) (resps : list response) (waits : list Z)
    (final : response) (r' : R) (w : world) :
  status_code final ≠ 429 →
  (length resps < fuel)%nat →
  (∀ self method endpoint kw,
     let rq := hubspot_request self method endpoint kw in
     answers http rq (remote w) (resps ++ [final]) r' →
     Forall2 (throttled 10) resps waits →
     ∃ evs result,
       hs_request fuel self method endpoint kw w =
         (result, World r' (files w) (dirs w) (tables w) (trace w ++ evs)) ∧
       requests_of evs = replicate (S (length resps)) rq ∧
       sleeps_of evs = waits ∧
       (∀ payload,
          200 ≤ status_code final < 300 → content final = Document payload →
          result = Ok payload) ∧
       (∀ resp, result = Raise (HTTPError resp) → status_code resp ≠ 429)) ∧
  (∀ config endpoint params method json_data,
     let rq := posthog_request config endpoint params method json_data in
     answers http rq (remote w) (resps ++ [final]) r' →
     Forall2 (throttled 60) resps waits →
     ∃ evs result,
       ph_request fuel config endpoint params method json_data w =
         (result, World r' (files w) (dirs w) (tables w) (trace w ++ evs)) ∧
       requests_of evs = replicate (S (length resps)) rq ∧
       sleeps_of evs = waits ∧
       (∀ payload,
          200 ≤ status_code final < 300 → content final = Document payload →
          result = Ok payload) ∧
       (∀ resp, result = Raise (HTTPError resp) → status_code resp ≠ 429)).
Proof.
  intros Hfin Hfuel. split.
  - intros self method endpoint kw rq Hans Hthr.
    eexists _, _. split; [by eapply hubspot_request_run|].
    rewrite requests_of_retry, sleeps_of_retry, (Forall2_length _ _ _ Hthr).
    repeat split.
    + intros payload Hs Hc. by apply finish_document.
    + intros resp. by apply finish_never_429.
  - intros config endpoint params method json_data rq Hans Hthr.
    eexists _, _. split; [by eapply posthog_request_run|].
    rewrite requests_of_retry, sleeps_of_retry, (Forall2_length _ _ _ Hthr).
    repeat split.
    + intros payload Hs Hc. by apply finish_document.
    + intros resp. by apply finish_never_429.
Qed.

(** C8, amended.  On a response that is not a 429 each client sends nothing
    more: the CRM client returns an empty record for a 2xx response with an
    empty body, and both clients raise an HTTP error carrying the response
    for a 4xx or 5xx status. *)
Theorem status_handling (fuel : nat) (resp : response) (r' : R) (w : world) :
  (∀ self method endpoint kw,
     let rq := hubspot_request self method endpoint kw in
     http (remote w) rq = (inr resp, r') →
     let w' := World r' (files w) (dirs w) (tables w) (trace w ++ [EvRequest rq]) in
     (200 ≤ status_code resp < 300 → content resp = NoContent →
        hs_request (S fuel) self method endpoint kw w = (Ok (JDict ∅), w')) ∧
     (400 ≤ status_code resp < 600 → status_code resp ≠ 429 →
        hs_request (S fuel) self method endpoint kw w = (Raise (HTTPError resp), w'))) ∧
  (∀ config endpoint params method json_data,
     let rq := posthog_request config endpoint params method json_data in
     http (remote w) rq = (inr resp, r') →
     let w' := World r' (files w) (dirs w) (tables w) (trace w ++ [EvRequest rq]) in
     400 ≤ status_code resp < 600 → status_code resp ≠ 429 →
     ph_request (S fuel) config endpoint params method json_data w =
       (Raise (HTTPError resp), w')).
Proof.
  split.
  - intros self method endpoint kw rq Hh w'. split.
    + intros Hs Hc.
      rewrite (hubspot_request_run (S fuel) self method endpoint kw [] [] resp r' w);
        [|by apply answers_one | constructor | lia | simpl; lia].
      unfold HubSpot.finish, raise_for_status, response_text. rewrite Hc.
      destruct (Z.leb_spec 400 (status_code resp)); [lia|]. reflexivity.
    + intros Hs Hne.
      rewrite (hubspot_request_run (S fuel) self method endpoint kw [] [] resp r' w);
        [|by apply answers_one | constructor | done | simpl; lia].
      unfold HubSpot.finish, raise_for_status.
      destruct (Z.leb_spec 400 (status_code resp)); [|lia].
      destruct (Z.ltb_spec (status_code resp) 600); [|lia]. reflexivity.
  - intros config endpoint params method json_data rq Hh w' Hs Hne.
    rewrite (posthog_request_run (S fuel) config endpoint params method json_data
               [] [] resp r' w);
      [|by apply answers_one | constructor | done | simpl; lia].
    unfold PostHog.finish, raise_for_status.
    destruct (Z.leb_spec 400 (status_code resp)); [|lia].
    destruct (Z.ltb_spec (status_code resp) 600); [|lia]. reflexivity.
Qed.

End Backoff.
(** ** The clients against a scripted endpoint *)

Lemma rate_limit_backoff_witness :
  let w := serving [throttled_once; ok_response] in
  status_code ok_response ≠ 429 ∧
  (∃ evs,
     HubSpot._request scripted_http 2 a_client "GET" "/crm/v3/owners" no_kwargs w =
       (Ok a_payload, World [] ∅ ∅ ∅ evs) ∧
     length (requests_of evs) = 2%nat ∧ sleeps_of evs = [3]) ∧
  (∃ evs,
     PostHog.make_request scripted_http 2 a_config "insights" None "GET" None w =
       (Ok a_payload, World [] ∅ ∅ ∅ evs) ∧
     length (requests_of evs) = 2%nat ∧ sleeps_of evs = [3]).
Proof.
  intros w.
  assert (Hfin : status_code ok_response ≠ 429) by (cbn; lia).
  assert (Hthr10 : Forall2 (throttled 10) [throttled_once] [3]).
  { repeat constructor. cbn; lia. }
  assert (Hthr60 : Forall2 (throttled 60) [throttled_once] [3]).
  { repeat constructor. cbn; lia. }
  destruct (rate_limit_backoff (T:=file) scripted_http 2 [throttled_once] [3]
              ok_response [] w Hfin) as [Hhs Hph]; [cbn; lia|].
  split; [exact Hfin|]. split.
  - destruct (Hhs a_client "GET" "/crm/v3/owners" no_kwargs)
      as (evs & result & Hrun & Hrq & Hsl & Hpayload & _);
      [repeat econstructor | exact Hthr10 |].
    rewrite (Hpayload a_payload) in Hrun; [|cbn; lia|reflexivity].
    exists evs. split; [exact Hrun|]. split; [by rewrite Hrq | exact Hsl].
  - destruct (Hph a_config "insights" None "GET" None)
      as (evs & result & Hrun & Hrq & Hsl & Hpayload & _);
      [repeat econstructor | exact Hthr60 |].
    rewrite (Hpayload a_payload) in Hrun; [|cbn; lia|reflexivity].
    exists evs. split; [exact Hrun|]. split; [by rewrite Hrq | exact Hsl].
Defined.

(** The analytics client fails on a 200 whose body is empty, and the CRM
    client returns an empty record for a 304. *)
Lemma status_handling_counterexample :
  fst (PostHog.make_request scripted_http 1 a_config "insights" None "GET" None
         (serving [empty_ok_response])) = Raise JSONDecodeError ∧
  fst (HubSpot._request scripted_http 1 a_client "GET" "/crm/v3/owners" no_kwargs
         (serving [not_modified_response])) = Ok (JDict ∅).
Proof. split; reflexivity. Qed.

Lemma status_handling_witness :
  fst (HubSpot._request scripted_http 1 a_client "PATCH" "/crm/v3/objects/deals/1"
         no_kwargs (serving [no_content_response])) = Ok (JDict ∅) ∧
  fst (HubSpot._request scripted_http 1 a_client "GET" "/crm/v3/owners" no_kwargs
         (serving [not_found_response])) = Raise (HTTPError not_found_response) ∧
  fst (PostHog.make_request scripted_http 1 a_config "insights" None "GET" None
         (serving [not_found_response])) = Raise (HTTPError not_found_response).
Proof.
  split; [|split].
  - destruct (status_handling scripted_http 0 no_content_response []
                (serving [no_content_response])) as [Hhs _].
    destruct (Hhs a_client "PATCH" "/crm/v3/objects/deals/1" no_kwargs) as [Hempty _];
      [reflexivity|].
    rewrite Hempty; [reflexivity | cbn; lia | reflexivity].
  - destruct (status_handling scripted_http 0 not_found_response []
                (serving [not_found_response])) as [Hhs _].
    destruct (Hhs a_client "GET" "/crm/v3/owners" no_kwargs) as [_ Herr];
      [reflexivity|].
    rewrite Herr; [reflexivity | cbn; lia | cbn; lia].
  - destruct (status_handling scripted_http 0 not_found_response []
                (serving [not_found_response])) as [_ Hph].
    rewrite (Hph a_config "insights" None "GET" None);
      [reflexivity | reflexivity | cbn; lia | cbn; lia].
Defined.

(** ** The loaders *)

Section LoaderProps.
Context {R T : Type} (duckdb : engine T).
#[local] Abbreviation world := (world R T).
#[local] Abbreviation hs_save := (HubSpot.save_to_duckdb (R:=R) duckdb).
#[local] Abbreviation ph_save := (PostHog.save_to_duckdb (R:=R) duckdb).

(** The CRM loader leaves everything but the output as it was when it is
    given no rows. *)
Lemma hubspot_empty_load_noop (table_name : string) (w : world) :
  hs_save [] table_name w =
    (Ok (), World (remote w) (files w) (dirs w) (tables w)
              (trace w ++ [EvPrint "  No data to save for {table_name}"
                             [PStr table_name]])).
Proof. reflexivity. Qed.

(** What a successful analytics load leaves behind. *)
Lemma posthog_load_run (data : json) (table_name : string) (w w' : world) :
  ph_save data table_name w = (Ok (), w') →
  ∃ t, read_json_auto duckdb data = Some t ∧
       files w' = delete (in_data_dir (table_name +:+ ".json")) (files w) ∧
       tables w' = <[table_name := t]> (tables w).
Proof.
  unfold PostHog.save_to_duckdb. intros Hrun.
  unfold mbind, prog_bind, mkdir, json_dump, write_file, drop_table_if_exists,
    create_table_as_read_json, create_table, select_count, print, emit, unlink in Hrun.
  cbn in Hrun.
  rewrite lookup_insert_eq, lookup_delete_eq in Hrun.
  destruct (read_json_auto duckdb data) as [t|] eqn:Hread; [|done].
  cbn in Hrun. repeat (rewrite lookup_insert_eq in Hrun; cbn in Hrun).
  injection Hrun as <-. exists t. cbn.
  split; [done|]. split.
  - by rewrite delete_insert_eq.
  - by rewrite insert_delete_eq.
Qed.

(** What a successful CRM load of some rows leaves behind. *)
Lemma hubspot_load_run (data : list json) (table_name : string) (w w' : world) :
  data ≠ [] →
  hs_save data table_name w = (Ok (), w') →
  ∃ flats t,
    HubSpot.flatten_all data = Ok flats ∧
    read_json_auto duckdb (JList (JDict <$> flats)) = Some t ∧
    files w' = delete (in_data_dir (table_name +:+ ".json")) (files w) ∧
    tables w' = <[table_name := t]> (tables w).
Proof.
  unfold HubSpot.save_to_duckdb. intros Hdata Hrun.
  destruct data as [|obj data]; [done|].
  unfold mbind, prog_bind, mkdir, lift, json_dump, write_file, drop_table_if_exists,
    create_table_as_read_json, create_table, select_count, print, emit, unlink in Hrun.
  destruct (HubSpot.flatten_all (obj :: data)) as [flats| | |] eqn:Hflat; try done.
  cbn in Hrun.
  rewrite lookup_insert_eq, lookup_delete_eq in Hrun.
  destruct (read_json_auto duckdb _) as [t|] eqn:Hread; [|done].
  cbn in Hrun. repeat (rewrite lookup_insert_eq in Hrun; cbn in Hrun).
  injection Hrun as <-. exists flats, t. cbn.
  split; [done|]. split; [done|]. split.
  - by rewrite delete_insert_eq.
  - by rewrite insert_delete_eq.
Qed.

(** C7, amended: when a load through either JSON loader returns, the
    table holds what the reader made of the serialized rows and the
    intermediate JSON file is gone. *)
Theorem load_deletes_intermediate_file (table_name : string) (w w' : world) :
  let json_path := in_data_dir (table_name +:+ ".json") in
  (∀ data : list json,
     data ≠ [] →
     hs_save data table_name w = (Ok (), w') →
     files w' !! json_path = None ∧ is_Some (tables w' !! table_name)) ∧
  (∀ data : json,
     ph_save data table_name w = (Ok (), w') →
     files w' !! json_path = None ∧ is_Some (tables w' !! table_name)).
Proof.
  intros json_path. split.
  - intros data Hdata Hrun.
    destruct (hubspot_load_run data table_name w w' Hdata Hrun)
      as (flats & t & _ & _ & -> & ->).
    split; [apply lookup_delete_eq | by rewrite lookup_insert_eq].
  - intros data Hrun.
    destruct (posthog_load_run data table_name w w' Hrun) as (t & _ & -> & ->).
    split; [apply lookup_delete_eq | by rewrite lookup_insert_eq].
Qed.

(** C2: whatever the table held, after the analytics loader is given an
    empty batch the table is what the reader makes of an empty document,
    and there is no table if the reader rejects it. *)
Theorem posthog_empty_load_replaces_table (table_name : string) (w : world) :
  tables (ph_save (JList []) table_name w).2 !! table_name =
    read_json_auto duckdb (JList []).
Proof.
  unfold PostHog.save_to_duckdb.
  unfold mbind, prog_bind, mkdir, json_dump, write_file, drop_table_if_exists,
    create_table_as_read_json, create_table, select_count, print, emit, unlink.
  cbn. rewrite lookup_insert_eq, lookup_delete_eq.
  destruct (read_json_auto duckdb (JList [])) as [t|]; cbn.
  - by repeat (rewrite lookup_insert_eq; cbn).
  - apply lookup_delete_eq.
Qed.

End LoaderProps.
(** ** The loaders on examples *)

Lemma load_deletes_intermediate_file_witness :
  let w := serving [] in
  let w1 := (HubSpot.save_to_duckdb verbatim [JDict bare_object] "contacts" w).2 in
  let w2 := (PostHog.save_to_duckdb verbatim (JList [JDict bare_object])
               "posthog_persons" w).2 in
  (files w1 !! "data/contacts.json" = None ∧ is_Some (tables w1 !! "contacts")) ∧
  (files w2 !! "data/posthog_persons.json" = None ∧
   is_Some (tables w2 !! "posthog_persons")).
Proof.
  intros w w1 w2. split.
  - apply (proj1 (load_deletes_intermediate_file verbatim "contacts" w w1)
             [JDict bare_object]); [discriminate | reflexivity].
  - apply (proj2 (load_deletes_intermediate_file verbatim "posthog_persons" w w2)
             (JList [JDict bare_object])); reflexivity.
Defined.

(** The query-result loader returns with the table created and the CSV file
    it read still in place. *)
Lemma csv_file_is_kept :
  let w : world (scripted json) file :=
    World [] {["data/usage.csv" := Blob "day,events"]} ∅ ∅ [] in
  let run := Athena.sync_to_duckdb verbatim [("usage", "data/usage.csv")] w in
  run.1 = Ok () ∧
  tables run.2 !! "usage" = Some (Blob "day,events") ∧
  files run.2 !! "data/usage.csv" = Some (Blob "day,events").
Proof. repeat split; reflexivity. Qed.

(** The scenario of the specification on both JSON loaders: a batch with
    one row, then an empty batch.  The CRM loader keeps the table; the
    analytics loader replaces it with the table of no rows. *)
Example empty_after_one_row :
  let w := serving [] in
  let one := [JDict bare_object] in
  let crm1 := (HubSpot.save_to_duckdb verbatim one "contacts" w).2 in
  let crm2 := (HubSpot.save_to_duckdb verbatim [] "contacts" crm1).2 in
  let ph1 := (PostHog.save_to_duckdb verbatim (JList one) "posthog_persons" w).2 in
  let ph2 := (PostHog.save_to_duckdb verbatim (JList []) "posthog_persons" ph1).2 in
  tables crm2 !! "contacts" = tables crm1 !! "contacts" ∧
  tables ph1 !! "posthog_persons" = Some (JsonFile (JList one)) ∧
  tables ph2 !! "posthog_persons" = Some (JsonFile (JList [])).
Proof. repeat split; reflexivity. Qed.

(** ** Pagination *)

Section CrmPagination.
Context {R T : Type} (http : R → request → (exn + response) * R).
#[local] Abbreviation world := (world R T).
#[local] Abbreviation hs_request := (HubSpot._request (T:=T) http).
#[local] Abbreviation hs_get := (HubSpot.get (T:=T) http).
#[local] Abbreviation hs_fetch_all := (HubSpot.fetch_all (T:=T) http).

Lemma hubspot_finish_status resp doc :
  HubSpot.finish resp = Ok doc → status_code resp ≠ 429.
Proof.
  unfold HubSpot.finish, raise_for_status. intros H Hs. rewrite Hs in H. done.
Qed.

Lemma posthog_finish_status resp doc :
  PostHog.finish resp = Ok doc → status_code resp ≠ 429.
Proof.
  unfold PostHog.finish, raise_for_status. intros H Hs. rewrite Hs in H. done.
Qed.

Lemma hubspot_finish_delivers resp doc :
  delivers resp doc → HubSpot.finish resp = Ok doc.
Proof. intros [Hs Hc]. by apply finish_document. Qed.

Lemma listing_params_query limit properties (sent : option json) :
  default true (truthy <$> sent) = true →
  HubSpot.listing_params limit properties (loop_cursor sent) =
    listing_query limit properties sent.
Proof.
  unfold HubSpot.listing_params, listing_query, loop_cursor.
  intros Hsent.
  assert (Hbase : <["properties" := JStr (String.concat "," properties)]>
                    (<["limit" := JInt limit]> (∅ : gmap string json)) =
                  <["limit" := JInt limit]>
                    {["properties" := JStr (String.concat "," properties)]}).
  { rewrite insert_insert_ne by done. by rewrite insert_empty. }
  destruct sent as [after|]; cbn in *.
  - by rewrite Hsent, Hbase.
  - exact Hbase.
Qed.

Lemma hubspot_get_listing fuel self endpoint properties limit sent resp doc r'
    (w : world) :
  default true (truthy <$> sent) = true →
  http (remote w) (listing_request self endpoint properties limit sent) = (inr resp, r') →
  delivers resp doc →
  hs_get (S fuel) self endpoint
    (Some (HubSpot.listing_params limit properties (loop_cursor sent))) w =
    (Ok doc, World r' (files w) (dirs w) (tables w)
               (trace w ++ [EvRequest (listing_request self endpoint properties
                                         limit sent)])).
Proof.
  intros Hsent Hh Hdoc. unfold HubSpot.get.
  assert (Hrq : hubspot_request self "GET" endpoint
                  {| HubSpot.kw_params :=
                       Some (HubSpot.listing_params limit properties (loop_cursor sent));
                     HubSpot.kw_json := None |} =
                listing_request self endpoint properties limit sent).
  { unfold hubspot_request, listing_request. cbn.
    by rewrite listing_params_query. }
  pose proof (hubspot_request_run http (S fuel) self "GET" endpoint
                {| HubSpot.kw_params :=
                     Some (HubSpot.listing_params limit properties (loop_cursor sent));
                   HubSpot.kw_json := None |} [] [] resp r' w) as Hrun.
  cbv zeta in Hrun. rewrite Hrq in Hrun.
  rewrite Hrun.
  - by rewrite (hubspot_finish_delivers resp doc).
  - by apply answers_one.
  - constructor.
  - eapply hubspot_finish_status. by apply hubspot_finish_delivers.
  - simpl; lia.
Qed.

Lemma hubspot_fetch_all_S fuel self endpoint noun properties limit all_objects after :
  hs_fetch_all (S fuel) self endpoint noun properties limit all_objects after =
    (result ← hs_get (S fuel) self endpoint
        (Some (HubSpot.listing_params limit properties after));
     results ← lift (py_get result "results" (JList []));
     all_objects ← lift (list_extend all_objects results);
     paging ← lift (py_get result "paging" (JDict ∅));
     next ← lift (py_get paging "next" (JDict ∅));
     after ← lift (py_get next "after" JNull);
     if negb (truthy after) then mret all_objects
     else
       print ("  Fetched {len(all_" +:+ noun +:+ ")} " +:+ noun +:+ "...")
             [PInt (Z.of_nat (length all_objects))];;
       hs_fetch_all fuel self endpoint noun properties limit all_objects after).
Proof. reflexivity. Qed.

(** The three lookups that read the cursor of a page. *)
Lemma page_cursor_run {A} doc cursor (k : json → prog world A) (w : world) :
  page_cursor doc = Ok cursor →
  (paging ← lift (py_get doc "paging" (JDict ∅));
   next ← lift (py_get paging "next" (JDict ∅));
   after ← lift (py_get next "after" JNull);
   k after) w = k cursor w.
Proof.
  unfold page_cursor. intros H.
  rewrite run_lift_bind.
  destruct (py_get doc "paging" (JDict ∅)) as [paging| | |]; try done.
  cbn in H. rewrite run_lift_bind.
  destruct (py_get paging "next" (JDict ∅)) as [next| | |]; try done.
  cbn in H. rewrite run_lift_bind. by rewrite H.
Qed.

Lemma hubspot_fetch_all_run self endpoint noun properties limit steps :
  ∀ fuel all_objects sent r' (w : world),
  crm_listing http self endpoint properties limit (remote w) sent steps r' →
  default true (truthy <$> sent) = true →
  (length steps ≤ fuel)%nat →
  hs_fetch_all fuel self endpoint noun properties limit all_objects
    (loop_cursor sent) w =
    (Ok (all_objects ++ objects_of steps),
     World r' (files w) (dirs w) (tables w)
       (trace w ++
        crm_events (listing_request self endpoint properties limit)
          ("  Fetched {len(all_" +:+ noun +:+ ")} " +:+ noun +:+ "...")
          (length all_objects) steps)).
Proof.
  intros fuel all_objects sent r' w Hwalk.
  remember (remote w) as r eqn:Hr.
  revert fuel all_objects w Hr.
  induction Hwalk as [r r' sent resp doc page cursor Hh Hdoc Hres Hcur Hlast
                     |r r' r'' sent resp doc page cursor steps Hh Hdoc Hres Hcur Hmore Hwalk IH];
    intros fuel all_objects w -> Hsent Hfuel.
  - destruct fuel as [|fuel]; [simpl in Hfuel; lia|].
    rewrite hubspot_fetch_all_S, run_bind.
    erewrite hubspot_get_listing; [|exact Hsent|exact Hh|exact Hdoc].
    unfold page_results in Hres. rewrite run_lift_bind, Hres.
    rewrite run_lift_bind. cbn [list_extend].
    rewrite (page_cursor_run doc cursor _ _ Hcur), Hlast.
    unfold objects_of. cbn. by rewrite app_nil_r.
  - destruct fuel as [|fuel]; [simpl in Hfuel; lia|].
    rewrite hubspot_fetch_all_S, run_bind.
    erewrite hubspot_get_listing; [|exact Hsent|exact Hh|exact Hdoc].
    unfold page_results in Hres. rewrite run_lift_bind, Hres.
    rewrite run_lift_bind. cbn [list_extend].
    rewrite (page_cursor_run doc cursor _ _ Hcur), Hmore.
    cbn [negb]. rewrite run_bind. unfold print at 1, emit at 1.
    change cursor with (loop_cursor (Some cursor)).
    rewrite IH; [|reflexivity|exact Hmore|simpl in Hfuel; lia].
    inversion Hwalk; subst; unfold objects_of; cbn;
      rewrite length_app, <- !app_assoc; reflexivity.
Qed.

End CrmPagination.

Section PersonsPagination.
Context {R T : Type} (http : R → request → (exn + response) * R).
#[local] Abbreviation world := (world R T).
#[local] Abbreviation ph_request := (PostHog.make_request (T:=T) http).
#[local] Abbreviation ph_loop := (PostHog.fetch_persons_loop (T:=T) http).
#[local] Abbreviation ph_fetch := (PostHog.fetch_persons (T:=T) http).

Lemma persons_loop_S fuel config limit all_persons next_url :
  ph_loop (S fuel) config limit all_persons next_url =
    (data ←
       (if truthy next_url then
          response ← PostHog.requests_get http next_url
            [("Authorization", "Bearer " +:+ PostHog.api_key config)];
          lift (PostHog.finish response)
        else
          ph_request (S fuel) config "persons"
            (Some {["limit" := JInt (Z.min limit 100)]}) "GET" None);
     results ← lift (py_get data "results" (JList []));
     all_persons ← lift (list_extend all_persons results);
     next ← lift (py_get data "next" JNull);
     if (limit <=? Z.of_nat (length all_persons)) || negb (truthy next)
     then mret all_persons
     else
       next_url ← lift (py_index data "next");
       ph_loop fuel config limit all_persons next_url).
Proof. reflexivity. Qed.

(** Fetching one page of persons. *)
Lemma persons_page_run fuel config limit next_url resp doc r' (w : world) :
  next_url ≠ Some "" →
  http (remote w) (persons_request config limit next_url) = (inr resp, r') →
  PostHog.finish resp = Ok doc →
  (if truthy (url_value next_url) then
     response ← PostHog.requests_get http (url_value next_url)
       [("Authorization", "Bearer " +:+ PostHog.api_key config)];
     lift (PostHog.finish response)
   else
     ph_request (S fuel) config "persons"
       (Some {["limit" := JInt (Z.min limit 100)]}) "GET" None) w =
    (Ok doc, World r' (files w) (dirs w) (tables w)
               (trace w ++ [EvRequest (persons_request config limit next_url)])).
Proof.
  intros Hne Hh Hdoc. destruct next_url as [url|]; cbn [url_value truthy].
  - destruct (String.eqb_spec url "") as [->|_]; [done|]. cbn [negb].
    rewrite run_bind. unfold PostHog.requests_get, requests_request, call.
    cbn [persons_request] in Hh. rewrite Hh. unfold lift. by rewrite Hdoc.
  - cbn [persons_request] in Hh.
    rewrite (posthog_request_run http (S fuel) config "persons" _ "GET" None
               [] [] resp r' w);
      [by rewrite Hdoc | by apply answers_one | constructor
      | by eapply posthog_finish_status | simpl; lia].
Qed.

Lemma persons_walk_nonempty config limit r next_url steps final r' :
  persons_walk http config limit r next_url steps final r' → steps ≠ [].
Proof. by destruct 1. Qed.

Lemma py_index_of_get doc key v :
  py_get doc key JNull = Ok v → v ≠ JNull → py_index doc key = Ok v.
Proof.
  destruct doc; try done. cbn. destruct (d !! key); cbn; congruence.
Qed.

Lemma persons_loop_run config limit steps final :
  ∀ fuel all_persons next_url r' (w : world),
  persons_walk http config limit (remote w) next_url steps final r' →
  next_url ≠ Some "" →
  Z.of_nat (length all_persons + length (objects_of (removelast steps))) < limit →
  limit ≤ Z.of_nat (length all_persons + length (objects_of steps))
    ∨ truthy final = false →
  (length steps ≤ fuel)%nat →
  ph_loop fuel config limit all_persons (url_value next_url) w =
    (Ok (all_persons ++ objects_of steps),
     World r' (files w) (dirs w) (tables w)
       (trace w ++ ((EvRequest ∘ persons_request config limit) <$> steps.*1))).
Proof.
  intros fuel all_persons next_url r' w Hwalk.
  remember (remote w) as r eqn:Hr.
  revert fuel all_persons w Hr.
  induction Hwalk as [r r' next_url resp doc page final Hh Hdoc Hres Hnext
                     |r r' r'' next_url resp doc page url steps final
                        Hh Hdoc Hres Hnext Hurl Hwalk IH];
    intros fuel all_persons w -> Hstart Hbelow Hstop Hfuel.
  - destruct fuel as [|fuel]; [simpl in Hfuel; lia|].
    rewrite persons_loop_S, run_bind.
    erewrite persons_page_run; [|exact Hstart|exact Hh|exact Hdoc].
    unfold page_results in Hres. rewrite run_lift_bind, Hres.
    rewrite run_lift_bind. cbn [list_extend].
    rewrite run_lift_bind, Hnext.
    unfold objects_of in *. cbn in Hstop |- *. rewrite app_nil_r in *.
    rewrite length_app.
    destruct Hstop as [Hstop | ->].
    + destruct (Z.leb_spec limit (Z.of_nat (length all_persons + length page)));
        [reflexivity | lia].
    + by rewrite orb_true_r.
  - destruct fuel as [|fuel]; [simpl in Hfuel; lia|].
    pose proof (persons_walk_nonempty _ _ _ _ _ _ _ Hwalk) as Hne.
    rewrite persons_loop_S, run_bind.
    erewrite persons_page_run; [|exact Hstart|exact Hh|exact Hdoc].
    unfold page_results in Hres. rewrite run_lift_bind, Hres.
    rewrite run_lift_bind. cbn [list_extend].
    rewrite run_lift_bind, Hnext.
    assert (Hrm : objects_of (removelast ((next_url, page) :: steps)) =
                  page ++ objects_of (removelast steps)).
    { destruct steps; [done|reflexivity]. }
    rewrite Hrm, length_app in Hbelow.
    rewrite length_app.
    destruct (Z.leb_spec limit (Z.of_nat (length all_persons + length page)));
      [lia|].
    cbn [truthy]. destruct (String.eqb_spec url "") as [|_]; [done|].
    cbn [negb orb]. rewrite run_lift_bind.
    rewrite (py_index_of_get doc "next" (JStr url)) by done.
    change (JStr url) with (url_value (Some url)).
    rewrite IH; [|reflexivity|congruence| | |simpl in Hfuel; lia].
    + unfold objects_of. cbn. rewrite <- !app_assoc. reflexivity.
    + rewrite length_app. lia.
    + rewrite length_app. unfold objects_of in *. cbn in Hstop.
      rewrite length_app in Hstop. destruct Hstop; [left; lia | by right].
Qed.

End PersonsPagination.
(** ** What the paginators return *)

Lemma requests_of_crm_events request_for template count steps :
  requests_of (crm_events request_for template count steps) = request_for <$> steps.*1.
Proof.
  revert count. induction steps as [|[after page] steps IH]; intros count; [done|].
  cbn. f_equal. destruct steps as [|step steps]; [done|].
  change (requests_of (crm_events request_for template (count + length page)
                         (step :: steps)) = request_for <$> (step :: steps).*1).
  apply IH.
Qed.

Lemma requests_of_requests {A} (request_for : A → request) (xs : list A) :
  requests_of ((EvRequest ∘ request_for) <$> xs) = request_for <$> xs.
Proof. induction xs as [|x xs IH]; [done|]. cbn. f_equal. exact IH. Qed.

Lemma objects_of_pages {A} (steps : list (A * list json)) (L : nat) :
  Forall (λ step, length step.2 = L) steps →
  length (objects_of steps) = (length steps * L)%nat.
Proof.
  unfold objects_of. induction 1 as [|[a page] steps Hpage _ IH]; [done|].
  cbn in *. rewrite length_app, IH, Hpage. reflexivity.
Qed.

Lemma slice_to_length {A} (xs : list A) (n : Z) :
  0 ≤ n → Z.of_nat (length (PostHog.slice_to xs n)) ≤ n.
Proof.
  intros Hn. unfold PostHog.slice_to.
  destruct (Z.leb_spec 0 n); [|lia]. rewrite length_take. lia.
Qed.

Lemma slice_to_take {A} (xs : list A) (n : Z) :
  0 ≤ n → PostHog.slice_to xs n = take (Z.to_nat n) xs.
Proof.
  intros Hn. unfold PostHog.slice_to. destruct (Z.leb_spec 0 n); [done|lia].
Qed.

Section Pagination.
Context {R T : Type} (http : R → request → (exn + response) * R).
#[local] Abbreviation world := (world R T).
#[local] Abbreviation hs_contacts := (HubSpot.get_all_contacts (T:=T) http).
#[local] Abbreviation ph_fetch := (PostHog.fetch_persons (T:=T) http).

Lemma persons_fetch_run fuel config limit steps final r' (w : world) :
  persons_walk http config limit (remote w) None steps final r' →
  Z.of_nat (length (objects_of (removelast steps))) < limit →
  limit ≤ Z.of_nat (length (objects_of steps)) ∨ truthy final = false →
  (length steps ≤ fuel)%nat →
  ph_fetch fuel config limit w =
    (Ok (take (Z.to_nat limit) (objects_of steps)),
     World r' (files w) (dirs w) (tables w)
       (trace w ++ ((EvRequest ∘ persons_request config limit) <$> steps.*1))).
Proof.
  intros Hwalk Hbelow Hstop Hfuel. unfold PostHog.fetch_persons.
  rewrite run_bind.
  change JNull with (url_value None).
  rewrite (persons_loop_run http config limit steps final fuel [] None r' w);
    [|done|done|done|done|done].
  cbn. rewrite slice_to_take; [done|].
  pose proof (Nat2Z.is_nonneg (length (objects_of (removelast steps)))). lia.
Qed.

Lemma cursor_sent_listing self endpoint properties limit sent :
  cursor_sent (listing_request self endpoint properties limit sent) = sent.
Proof.
  unfold cursor_sent, listing_request, listing_query. cbn.
  destruct sent as [after|].
  - apply lookup_insert_eq.
  - rewrite lookup_insert_ne by done. by rewrite lookup_singleton_ne.
Qed.

Lemma persons_listing_walk config limit r next_url steps r' :
  persons_listing http config limit r next_url steps r' →
  ∃ final, persons_walk http config limit r next_url steps final r' ∧
           truthy final = false.
Proof.
  induction 1 as [r r' next_url resp doc page final Hh [Hs Hc] Hres Hnext Hlast
                 |r r' r'' next_url resp doc page url steps Hh [Hs Hc] Hres Hnext
                    Hurl Hwalk (final & IH & Hlast)].
  - exists final. split; [|done].
    eapply persons_walk_last; [exact Hh | by apply finish_document | done..].
  - exists final. split; [|done].
    eapply persons_walk_next; [exact Hh | by apply finish_document | done..].
Qed.

(** C4, amended.  Over a listing whose pages chain by their cursors, the CRM
    paginator asks for each page once, in order: its first request carries
    no cursor and every later one carries, under [after], the cursor the
    previous page carried; it stops at the page that carries none, and
    returns the objects of the pages in order, each as often as the listing
    has it: [N * L] objects for [N] pages of [L], in [N] requests.  The
    persons fetch does the same, asking for each page at the URL the
    previous one gave, as long as the objects before the last page number
    fewer than its limit and the whole listing no more than it. *)
Theorem paginated_fetch_returns_listing (fuel : nat) (r' : R) (w : world) :
  (∀ self properties limit steps,
     let endpoint := "/crm/v3/objects/contacts" in
     let properties' := contact_properties properties in
     crm_listing http self endpoint properties' limit (remote w) None steps r' →
     (length steps ≤ fuel)%nat →
     ∃ evs objects,
       hs_contacts fuel self properties limit w =
         (Ok objects, World r' (files w) (dirs w) (tables w) (trace w ++ evs)) ∧
       objects = objects_of steps ∧
       requests_of evs = listing_request self endpoint properties' limit <$> steps.*1 ∧
       (∀ i sent page,
          steps !! i = Some (sent, page) →
          cursor_sent <$> requests_of evs !! i = Some sent) ∧
       ∀ L, Forall (λ step, length step.2 = L) steps →
            length objects = (length (requests_of evs) * L)%nat ∧
            length (requests_of evs) = length steps) ∧
  (∀ config limit steps,
     persons_listing http config limit (remote w) None steps r' →
     Z.of_nat (length (objects_of (removelast steps))) < limit →
     Z.of_nat (length (objects_of steps)) ≤ limit →
     (length steps ≤ fuel)%nat →
     ∃ evs objects,
       ph_fetch fuel config limit w =
         (Ok objects, World r' (files w) (dirs w) (tables w) (trace w ++ evs)) ∧
       objects = objects_of steps ∧
       requests_of evs = persons_request config limit <$> steps.*1 ∧
       ∀ L, Forall (λ step, length step.2 = L) steps →
            length objects = (length (requests_of evs) * L)%nat ∧
            length (requests_of evs) = length steps).
Proof.
  split.
  - intros self properties limit steps endpoint properties' Hwalk Hfuel.
    eexists _, _. split; [|split; [done|split; [|split]]].
    + unfold HubSpot.get_all_contacts.
      apply (hubspot_fetch_all_run http self endpoint "contacts" properties' limit
               steps fuel [] None r' w Hwalk eq_refl Hfuel).
    + apply requests_of_crm_events.
    + intros i sent page Hstep.
      rewrite requests_of_crm_events, !list_lookup_fmap, Hstep.
      change (Some (cursor_sent (listing_request self endpoint properties' limit
                                   sent)) = Some sent).
      by rewrite cursor_sent_listing.
    + intros L HL. rewrite requests_of_crm_events, !length_fmap.
      split; [by apply objects_of_pages | done].
  - intros config limit steps Hlisting Hbelow Hall Hfuel.
    destruct (persons_listing_walk config limit _ _ _ _ Hlisting)
      as (final & Hwalk & Hfinal).
    eexists _, _. split; [|split; [|split]].
    + apply (persons_fetch_run fuel config limit steps final r' w);
        [done|done|by right|done].
    + by rewrite take_ge by lia.
    + apply requests_of_requests.
    + intros L HL. rewrite requests_of_requests, !length_fmap.
      split; [|done]. rewrite take_ge by lia. by apply objects_of_pages.
Qed.

(** C10, amended: for a limit that is not negative.  Whatever the service
    does, the persons the fetch returns number at most the limit; and over
    pages that reach the limit only with the last of them, the fetch asks
    for exactly those pages and returns the first [limit] of their objects,
    whatever the last page carries under ['next']. *)
Theorem fetch_persons_caps_at_limit (fuel : nat) (config : PostHog.config)
    (limit : Z) (w : world) :
  0 ≤ limit →
  (∀ persons w',
     ph_fetch fuel config limit w = (Ok persons, w') →
     Z.of_nat (length persons) ≤ limit) ∧
  (∀ steps final r',
     persons_walk http config limit (remote w) None steps final r' →
     Z.of_nat (length (objects_of (removelast steps))) < limit →
     limit ≤ Z.of_nat (length (objects_of steps)) →
     (length steps ≤ fuel)%nat →
     ∃ evs,
       ph_fetch fuel config limit w =
         (Ok (take (Z.to_nat limit) (objects_of steps)),
          World r' (files w) (dirs w) (tables w) (trace w ++ evs)) ∧
       requests_of evs = persons_request config limit <$> steps.*1).
Proof.
  intros Hlimit. split.
  - intros persons w' Hrun. unfold PostHog.fetch_persons in Hrun.
    rewrite run_bind in Hrun.
    destruct (PostHog.fetch_persons_loop http fuel config limit [] JNull w)
      as [[all_persons| | |] w1]; try done.
    injection Hrun as <- _. by apply slice_to_length.
  - intros steps final r' Hwalk Hbelow Hreach Hfuel.
    eexists. split.
    + apply (persons_fetch_run fuel config limit steps final r' w);
        [done|done|by left|done].
    + apply requests_of_requests.
Qed.

End Pagination.

(** *** The paginators against scripted endpoints *)

Lemma two_crm_pages_listing limit :
  crm_listing contacts_endpoint a_client "/crm/v3/objects/contacts"
    (contact_properties None) limit () None two_crm_pages ().
Proof.
  eapply crm_listing_next;
    [reflexivity | split; [cbn; lia | reflexivity] | reflexivity..|].
  eapply crm_listing_last;
    [reflexivity | split; [cbn; lia | reflexivity] | reflexivity..].
Qed.

Lemma two_persons_pages_answered limit :
  persons_listing persons_endpoint a_config limit () None two_persons_pages ().
Proof.
  eapply persons_listing_next;
    [reflexivity | split; [cbn; lia | reflexivity] | reflexivity | reflexivity
    | done |].
  eapply persons_listing_last;
    [reflexivity | split; [cbn; lia | reflexivity] | reflexivity..].
Qed.

Lemma two_persons_pages_walk limit last final :
  PostHog.finish last = Ok (JDict (<["results" := JList [object "3"; object "4"]]>
                                     {["next" := final]})) →
  persons_walk scripted_http a_config limit [persons_page_1; last] None
    two_persons_pages final [].
Proof.
  intros Hlast.
  eapply persons_walk_next; [reflexivity..|done|].
  eapply persons_walk_last; [reflexivity|exact Hlast|reflexivity..].
Qed.

Lemma paginated_fetch_returns_listing_witness :
  let all := [object "1"; object "2"; object "3"; object "4"] in
  let w : world () file := empty_world () in
  (∃ evs,
     HubSpot.get_all_contacts contacts_endpoint 2 a_client None 100 w =
       (Ok all, World () ∅ ∅ ∅ evs) ∧
     cursor_sent <$> requests_of evs = [None; Some (JStr "2")]) ∧
  (∃ evs,
     PostHog.fetch_persons persons_endpoint 2 a_config 1000 w =
       (Ok all, World () ∅ ∅ ∅ evs) ∧
     rq_url <$> requests_of evs =
       ["https://app.posthog.com/api/projects/1/persons";
        "https://app.posthog.com/api/projects/1/persons?offset=2"]).
Proof.
  intros all w. split.
  - destruct (proj1 (paginated_fetch_returns_listing (T:=file) contacts_endpoint 2 ()
                       w)
                a_client None 100 two_crm_pages)
      as (evs & objects & Hrun & -> & Hrq & _);
      [apply two_crm_pages_listing | cbn; lia |].
    exists evs. split; [exact Hrun | by rewrite Hrq].
  - destruct (proj2 (paginated_fetch_returns_listing (T:=file) persons_endpoint 2 ()
                       w)
                a_config 1000 two_persons_pages)
      as (evs & objects & Hrun & -> & Hrq & _);
      [apply two_persons_pages_answered | cbn; lia | cbn; lia | cbn; lia |].
    exists evs. split; [exact Hrun | by rewrite Hrq].
Defined.

(** A listing of two pages of two persons, fetched with a limit of two:
    the fetch returns the first page and never asks for the second. *)
Lemma persons_fetch_stops_at_limit :
  let w := serving [persons_page_1; persons_page_2] in
  let run := PostHog.fetch_persons scripted_http 2 a_config 2 w in
  persons_walk scripted_http a_config 2 (remote w) None two_persons_pages JNull [] ∧
  run.1 = Ok [object "1"; object "2"] ∧
  length (requests_of (trace run.2)) = 1%nat ∧
  remote run.2 = [persons_page_2].
Proof.
  split; [by apply two_persons_pages_walk|]. repeat split; reflexivity.
Qed.

Lemma fetch_persons_caps_at_limit_witness :
  let w := serving [persons_page_1; persons_page_2_more] in
  ∃ evs,
    PostHog.fetch_persons scripted_http 2 a_config 3 w =
      (Ok [object "1"; object "2"; object "3"], World [] ∅ ∅ ∅ evs) ∧
    length (requests_of evs) = 2%nat ∧
    Z.of_nat (length [object "1"; object "2"; object "3"]) ≤ 3.
Proof.
  intros w.
  destruct (fetch_persons_caps_at_limit (T:=file) scripted_http 2 a_config 3 w)
    as [Hcap Hstop]; [lia|].
  destruct (Hstop two_persons_pages
              (JStr "https://app.posthog.com/api/projects/1/persons?offset=4") [])
    as (evs & Hrun & Hrq); [by apply two_persons_pages_walk | cbn; lia | cbn; lia
                           | cbn; lia |].
  exists evs. split; [exact Hrun|]. split; [by rewrite Hrq|].
  exact (Hcap _ _ Hrun).
Defined.

(** With a limit of -1 the fetch returns all but the last person of the
    first page. *)
Lemma negative_limit_is_exceeded :
  let run := PostHog.fetch_persons scripted_http 1 a_config (-1)
               (serving [persons_page_2]) in
  run.1 = Ok [object "3"] ∧ ¬ (Z.of_nat (length [object "3"]) ≤ -1).
Proof. split; [reflexivity | cbn; lia]. Qed.

(** ** The query runner *)

Lemma events_of_poll_events execution_id n :
  sleeps_of (poll_events execution_id 2 n) = replicate n 2 ∧
  polls_of (poll_events execution_id 2 n) = replicate (S n) execution_id ∧
  downloads_of (poll_events execution_id 2 n) = [].
Proof.
  induction n as [|n (IHs & IHp & IHd)]; [done|].
  cbn [poll_events]. repeat split.
  - cbn. by rewrite <- IHs.
  - cbn. f_equal. exact IHp.
  - exact IHd.
Qed.

Section Runner.
Context {R T : Type} (boto3 : Athena.aws R) (duckdb : engine T).
#[local] Abbreviation world := (world R T).
#[local] Abbreviation wait_for_query := (Athena.wait_for_query (T:=T) boto3).
#[local] Abbreviation query_try := (Athena.query_try (T:=T) boto3).
#[local] Abbreviation query_turn := (Athena.query_turn (T:=T) boto3).
#[local] Abbreviation run_queries := (Athena.run_queries (T:=T) boto3).

Lemma wait_for_query_S fuel execution_id poll_interval :
  wait_for_query (S fuel) execution_id poll_interval =
    (response ← call (EvGetQuery execution_id)
        (λ r, Athena.get_query_execution boto3 r execution_id);
     execution ← lift (py_index response "QueryExecution");
     status ← lift (py_index execution "Status");
     state ← lift (py_index status "State");
     if Athena.is_terminal state then mret execution
     else
       sleep poll_interval;;
       wait_for_query fuel execution_id poll_interval).
Proof. reflexivity. Qed.

(** The two lookups that read the state of an execution. *)
Lemma query_state_run {A} execution state (k : json → prog world A) (w : world) :
  query_state execution = Ok state →
  (status ← lift (py_index execution "Status");
   state ← lift (py_index status "State");
   k state) w = k state w.
Proof.
  unfold query_state. intros H. rewrite run_lift_bind.
  destruct (py_index execution "Status") as [status| | |]; try done.
  cbn in H. by rewrite run_lift_bind, H.
Qed.

Lemma terminal_is_terminal (state : json) :
  terminal state ↔ Athena.is_terminal state = true.
Proof.
  unfold terminal, Athena.is_terminal. split.
  - by intros [-> | [-> | ->]].
  - destruct state as [| | | |s| |]; try done.
    intros Hs. apply bool_decide_eq_true in Hs.
    repeat (apply elem_of_cons in Hs as [-> | Hs]; [tauto|]).
    by apply elem_of_nil in Hs.
Qed.

Lemma succeeded_is_succeeded (state : json) :
  state = JStr "SUCCEEDED" ↔ Athena.is_succeeded state = true.
Proof.
  unfold Athena.is_succeeded. split; [by intros ->|].
  destruct state as [| | | |s| |]; try done.
  by intros ->%String.eqb_eq.
Qed.

Lemma wait_for_query_run execution_id n execution :
  ∀ fuel r' (w : world),
  polls boto3 execution_id (remote w) n execution r' →
  (n < fuel)%nat →
  wait_for_query fuel execution_id 2 w =
    (Ok execution,
     World r' (files w) (dirs w) (tables w)
       (trace w ++ poll_events execution_id 2 n)).
Proof.
  intros fuel r' w Hpolls.
  remember (remote w) as r eqn:Hr.
  revert fuel w Hr.
  induction Hpolls as [r r' response execution state Hget Hexec Hstate Hterm
                      |r r' r'' response execution state n final
                         Hget Hexec Hstate Hterm Hpolls IH];
    intros fuel w -> Hfuel.
  - apply terminal_is_terminal in Hterm.
    destruct fuel as [|fuel]; [lia|].
    rewrite wait_for_query_S, run_bind. unfold call. rewrite Hget.
    rewrite run_lift_bind, Hexec.
    by rewrite (query_state_run execution state _ _ Hstate), Hterm.
  - assert (Hterm' : Athena.is_terminal state = false).
    { destruct (Athena.is_terminal state) eqn:Ht; [|done].
      by apply terminal_is_terminal in Ht. }
    destruct fuel as [|fuel]; [lia|].
    rewrite wait_for_query_S, run_bind. unfold call. rewrite Hget.
    rewrite run_lift_bind, Hexec.
    rewrite (query_state_run execution state _ _ Hstate), Hterm'.
    rewrite run_bind. unfold sleep. cbn [Z.ltb Z.compare]. unfold emit at 1.
    rewrite IH; [|reflexivity|lia].
    cbn. by rewrite <- !app_assoc.
Qed.

Lemma polls_terminal execution_id r n execution r' :
  polls boto3 execution_id r n execution r' →
  ∃ state, query_state execution = Ok state ∧ terminal state.
Proof. induction 1; eauto. Qed.

(** A turn up to the terminal state: submission, then the polls. *)
Lemma query_try_prefix fuel database workgroup output_location name sql csv_files
    execution_id n execution state r1 r2 (w : world) :
  submitted boto3 sql database workgroup output_location (remote w) execution_id r1 →
  polls boto3 execution_id r1 n execution r2 →
  query_state execution = Ok state →
  (n < fuel)%nat →
  let w2 := World r2 (files w) (dirs w) (tables w)
              (trace w ++
               [EvStartQuery sql database workgroup output_location;
                EvPrint "  Execution ID: {execution_id}" [PJson execution_id]]
               ++ poll_events execution_id 2 n) in
  query_try fuel database workgroup output_location name sql csv_files w =
    (if Athena.is_succeeded state then
       configuration ← lift (py_index execution "ResultConfiguration");
       output_uri ← lift (py_index configuration "OutputLocation");
       Athena.download_results boto3 output_uri (in_data_dir (name +:+ ".csv"));;
       print "  Downloaded to {local_csv}" [PStr (in_data_dir (name +:+ ".csv"))];;
       mret (Athena.dict_set name (in_data_dir (name +:+ ".csv")) csv_files)
     else
       status ← lift (py_index execution "Status");
       reason ← lift (py_get status "StateChangeReason" (JStr "Unknown error"));
       print "  Query failed: {reason}" [PJson reason];;
       mret csv_files) w2.
Proof.
  intros (response & Hstart & Hid) Hpolls Hstate Hfuel w2.
  unfold Athena.query_try, Athena.run_athena_query.
  rewrite run_bind, run_bind. unfold call. rewrite Hstart.
  unfold lift at 1. rewrite Hid.
  rewrite run_bind. unfold print at 1, emit at 1.
  rewrite run_bind.
  erewrite wait_for_query_run; [|exact Hpolls|exact Hfuel].
  rewrite (query_state_run execution state _ _ Hstate).
  cbn [remote files dirs tables trace]. subst w2.
  by rewrite <- !app_assoc.
Qed.

Lemma download_results_run uri bucket key answer r3 local_path (w : world) :
  s3_location uri = Some (bucket, key) →
  Athena.download_file boto3 (remote w) bucket key = (answer, r3) →
  Athena.download_results boto3 (JStr uri) local_path w =
    match answer with
    | inr data =>
        (Ok (), World r3 (<[local_path := Blob data]> (files w)) (dirs w) (tables w)
                  (trace w ++ [EvDownload bucket key local_path]))
    | inl e =>
        (Raise e, World r3 (files w) (dirs w) (tables w)
                    (trace w ++ [EvDownload bucket key local_path]))
    end.
Proof.
  unfold s3_location, Athena.download_results, Athena.list_index.
  intros Hloc Hget.
  destruct (_ !! 0%nat) as [b|]; [|done].
  destruct (_ !! 1%nat) as [k|]; [|done].
  injection Hloc as -> ->.
  rewrite !run_lift_bind. unfold Athena.s3_download_file.
  rewrite run_bind. unfold call. rewrite Hget.
  by destruct answer.
Qed.

Lemma failure_reason_defined execution state :
  query_state execution = Ok state →
  ∃ reason, failure_reason execution = Ok reason.
Proof.
  unfold query_state, failure_reason.
  destruct (py_index execution "Status") as [status| | |]; try done.
  cbn. destruct status; try done. eauto.
Qed.

Lemma failure_reason_run {A} execution reason (k : json → prog world A) (w : world) :
  failure_reason execution = Ok reason →
  (status ← lift (py_index execution "Status");
   reason ← lift (py_get status "StateChangeReason" (JStr "Unknown error"));
   k reason) w = k reason w.
Proof.
  unfold failure_reason. intros H. rewrite run_lift_bind.
  destruct (py_index execution "Status") as [status| | |]; try done.
  cbn in H. by rewrite run_lift_bind, H.
Qed.

Lemma result_location_run {A} execution uri (k : json → prog world A) (w : world) :
  result_location execution = Ok uri →
  (configuration ← lift (py_index execution "ResultConfiguration");
   output_uri ← lift (py_index configuration "OutputLocation");
   k output_uri) w = k uri w.
Proof.
  unfold result_location. intros H. rewrite run_lift_bind.
  destruct (py_index execution "ResultConfiguration") as [conf| | |]; try done.
  cbn in H. by rewrite run_lift_bind, H.
Qed.

Lemma query_turn_run fuel database workgroup output_location name sql csv_files
    (w : world) :
  query_turn fuel database workgroup output_location name sql csv_files w =
    let w0 := World (remote w) (files w) (dirs w) (tables w)
                (trace w ++ [EvPrint "\nExecuting query: {name}" [PStr name]]) in
    match query_try fuel database workgroup output_location name sql csv_files w0 with
    | (Raise e, w1) =>
        if is_Exception e
        then (Ok csv_files,
              World (remote w1) (files w1) (dirs w1) (tables w1)
                (trace w1 ++ [EvPrint "  Error: {e}" [PExn e]]))
        else (Raise e, w1)
    | result => result
    end.
Proof.
  unfold Athena.query_turn. rewrite run_bind. unfold print at 1, emit at 1.
  unfold try_except.
  by destruct (Athena.query_try _ _ _ _ _ _ _ _ _) as [[csv|e| |] w1].
Qed.

(** A turn whose execution ends in another state than SUCCEEDED. *)
Lemma query_turn_failed fuel database workgroup output_location name sql csv_files
    execution_id n execution state reason r1 r2 (w : world) :
  submitted boto3 sql database workgroup output_location (remote w) execution_id r1 →
  polls boto3 execution_id r1 n execution r2 →
  query_state execution = Ok state →
  Athena.is_succeeded state = false →
  failure_reason execution = Ok reason →
  (n < fuel)%nat →
  query_turn fuel database workgroup output_location name sql csv_files w =
    (Ok csv_files,
     World r2 (files w) (dirs w) (tables w)
       (trace w ++
        turn_events name sql database workgroup output_location execution_id n ++
        [EvPrint "  Query failed: {reason}" [PJson reason]])).
Proof.
  intros Hsub Hpolls Hstate Hfail Hreason Hfuel.
  rewrite query_turn_run. cbv zeta.
  erewrite query_try_prefix; [|exact Hsub|exact Hpolls|exact Hstate|exact Hfuel].
  rewrite Hfail, (failure_reason_run execution reason _ _ Hreason).
  rewrite run_bind. unfold print at 1, emit at 1. cbn.
  unfold turn_events. by rewrite <- !app_assoc.
Qed.

(** A turn whose execution ends in SUCCEEDED. *)
Lemma query_turn_succeeded fuel database workgroup output_location name sql csv_files
    execution_id n execution state uri bucket key answer r1 r2 r3 (w : world) :
  submitted boto3 sql database workgroup output_location (remote w) execution_id r1 →
  polls boto3 execution_id r1 n execution r2 →
  query_state execution = Ok state →
  Athena.is_succeeded state = true →
  result_location execution = Ok (JStr uri) →
  s3_location uri = Some (bucket, key) →
  Athena.download_file boto3 r2 bucket key = (answer, r3) →
  (n < fuel)%nat →
  let local_csv := in_data_dir (name +:+ ".csv") in
  let before := turn_events name sql database workgroup output_location execution_id n in
  query_turn fuel database workgroup output_location name sql csv_files w =
    match answer with
    | inr data =>
        (Ok (Athena.dict_set name local_csv csv_files),
         World r3 (<[local_csv := Blob data]> (files w)) (dirs w) (tables w)
           (trace w ++ before ++
            [EvDownload bucket key local_csv;
             EvPrint "  Downloaded to {local_csv}" [PStr local_csv]]))
    | inl e =>
        if is_Exception e then
          (Ok csv_files,
           World r3 (files w) (dirs w) (tables w)
             (trace w ++ before ++
              [EvDownload bucket key local_csv; EvPrint "  Error: {e}" [PExn e]]))
        else
          (Raise e,
           World r3 (files w) (dirs w) (tables w)
             (trace w ++ before ++ [EvDownload bucket key local_csv]))
    end.
Proof.
  intros Hsub Hpolls Hstate Hok Hloc Hparse Hget Hfuel local_csv before.
  rewrite query_turn_run. cbv zeta.
  erewrite query_try_prefix; [|exact Hsub|exact Hpolls|exact Hstate|exact Hfuel].
  rewrite Hok, (result_location_run execution (JStr uri) _ _ Hloc).
  rewrite run_bind.
  erewrite download_results_run; [|exact Hparse|exact Hget].
  subst before. unfold turn_events. fold local_csv.
  destruct answer as [e|data].
  - destruct (is_Exception e); cbn; by rewrite <- !app_assoc.
  - rewrite run_bind. unfold print at 1, emit at 1. cbn.
    by rewrite <- !app_assoc.
Qed.

End Runner.
(** ** What a program leaves alone *)

Section Frames.
Context {R T : Type}.
#[local] Abbreviation world := (world R T).

Lemma same_local_refl (w : world) : same_local w w.
Proof. done. Qed.

Lemma same_local_trans (w1 w2 w3 : world) :
  same_local w1 w2 → same_local w2 w3 → same_local w1 w3.
Proof. unfold same_local. intros (-> & -> & ->) (-> & -> & ->). done. Qed.

Lemma keeps_weaken {A} (m : prog world A) : keeps m → keeps_unless_ok m.
Proof. intros H w o w' Hrun _. by eapply H. Qed.

Lemma keeps_lift {A} (o : outcome A) : keeps (lift o : prog world A).
Proof. intros w o' w' [= _ <-]. done. Qed.

Lemma keeps_ret {A} (a : A) : keeps (mret a : prog world A).
Proof. intros w o' w' [= _ <-]. done. Qed.

Lemma keeps_emit e : keeps (emit e : prog world ()).
Proof. intros w o' w' [= _ <-]. done. Qed.

Lemma keeps_print template args : keeps (print template args : prog world ()).
Proof. apply keeps_emit. Qed.

Lemma keeps_sleep secs : keeps (sleep secs : prog world ()).
Proof. unfold sleep. destruct (secs <? 0); [apply keeps_lift | apply keeps_emit]. Qed.

Lemma keeps_call {A} e (service : R → (exn + A) * R) :
  keeps (call e service : prog world A).
Proof.
  intros w o' w'. unfold call. destruct (service (remote w)). intros [= _ <-]. done.
Qed.

Lemma keeps_bind {A B} (m : prog world A) (k : A → prog world B) :
  keeps m → (∀ a, keeps (k a)) → keeps (m ≫= k).
Proof.
  intros Hm Hk w o w'. rewrite run_bind.
  destruct (m w) as [[a|e| |] w1] eqn:Hrun; specialize (Hm _ _ _ Hrun).
  - intros Hrun'. eapply same_local_trans; [exact Hm | by eapply Hk].
  - by intros [= _ <-].
  - by intros [= _ <-].
  - by intros [= _ <-].
Qed.

Lemma keeps_unless_ok_bind {A B} (m : prog world A) (k : A → prog world B) :
  keeps m → (∀ a, keeps_unless_ok (k a)) → keeps_unless_ok (m ≫= k).
Proof.
  intros Hm Hk w o w'. rewrite run_bind.
  destruct (m w) as [[a|e| |] w1] eqn:Hrun; specialize (Hm _ _ _ Hrun).
  - intros Hrun' Ho. eapply same_local_trans; [exact Hm | by eapply Hk].
  - by intros [= _ <-].
  - by intros [= _ <-].
  - by intros [= _ <-].
Qed.

Lemma keeps_unless_ok_then {A B} (m : prog world A) (k : A → prog world B) :
  keeps_unless_ok m → (∀ a, always_ok (k a)) → keeps_unless_ok (m ≫= k).
Proof.
  intros Hm Hk w o w'. rewrite run_bind.
  destruct (m w) as [[a|e| |] w1] eqn:Hrun.
  - destruct (Hk a w1) as (b & w2 & ->). intros [= <- _] Ho. by destruct (Ho b).
  - intros [= _ <-] _. by eapply Hm.
  - intros [= _ <-] _. by eapply Hm.
  - intros [= _ <-] _. by eapply Hm.
Qed.

End Frames.

Section RunnerFrames.
Context {R T : Type} (boto3 : Athena.aws R).
#[local] Abbreviation world := (world R T).

Lemma keeps_wait_for_query fuel execution_id poll_interval :
  keeps (Athena.wait_for_query (T:=T) boto3 fuel execution_id poll_interval).
Proof.
  induction fuel as [|fuel IH]; [apply keeps_lift|].
  cbn [Athena.wait_for_query].
  apply keeps_bind; [apply keeps_call|]. intros response.
  apply keeps_bind; [apply keeps_lift|]. intros execution.
  apply keeps_bind; [apply keeps_lift|]. intros status.
  apply keeps_bind; [apply keeps_lift|]. intros state.
  destruct (Athena.is_terminal state); [apply keeps_ret|].
  apply keeps_bind; [apply keeps_sleep|]. intros _. exact IH.
Qed.

Lemma keeps_download_results s3_uri local_path :
  keeps_unless_ok (Athena.download_results (T:=T) boto3 s3_uri local_path).
Proof.
  unfold Athena.download_results.
  destruct s3_uri; try apply keeps_weaken, keeps_lift.
  apply keeps_unless_ok_bind; [apply keeps_lift|]. intros bucket.
  apply keeps_unless_ok_bind; [apply keeps_lift|]. intros key.
  unfold Athena.s3_download_file.
  apply keeps_unless_ok_then; [apply keeps_weaken, keeps_call|].
  intros data w. by eexists _, _.
Qed.

(** A turn that does not reach its end has written no file. *)
Lemma keeps_query_try fuel database workgroup output_location name sql csv_files :
  keeps_unless_ok
    (Athena.query_try (T:=T) boto3 fuel database workgroup output_location
       name sql csv_files).
Proof.
  unfold Athena.query_try, Athena.run_athena_query.
  apply keeps_unless_ok_bind.
  { apply keeps_bind; [apply keeps_call|]. intros ?. apply keeps_lift. }
  intros execution_id.
  apply keeps_unless_ok_bind; [apply keeps_print|]. intros _.
  apply keeps_unless_ok_bind; [apply keeps_wait_for_query|]. intros result.
  apply keeps_unless_ok_bind; [apply keeps_lift|]. intros status.
  apply keeps_unless_ok_bind; [apply keeps_lift|]. intros state.
  destruct (Athena.is_succeeded state).
  - apply keeps_unless_ok_bind; [apply keeps_lift|]. intros configuration.
    apply keeps_unless_ok_bind; [apply keeps_lift|]. intros output_uri.
    apply keeps_unless_ok_then; [apply keeps_download_results|].
    intros _ w. by eexists _, _.
  - apply keeps_weaken.
    apply keeps_bind; [apply keeps_lift|]. intros status'.
    apply keeps_bind; [apply keeps_lift|]. intros reason.
    apply keeps_bind; [apply keeps_print|]. intros _. apply keeps_ret.
Qed.

End RunnerFrames.
(** ** Locations in the object store *)

Lemma str_replace_scheme_absent (s : string) :
  occurs ":" s = false → Athena.str_replace "s3://" "" 0 s = s.
Proof.
  induction s as [|c rest IH]; [done|].
  intros Hc. cbn [occurs] in Hc. apply orb_false_elim in Hc as [Hc Hrest].
  cbn [Athena.str_replace].
  destruct (String.prefix "s3://" (String c rest)) eqn:Hp.
  - exfalso. cbn [String.prefix] in Hp.
    destruct (Ascii.ascii_dec "s" c) as [_|]; [|discriminate Hp].
    destruct rest as [|c1 rest]; cbn [String.prefix] in Hp; [discriminate Hp|].
    destruct (Ascii.ascii_dec "3" c1) as [_|]; [|discriminate Hp].
    destruct rest as [|c2 rest]; cbn [String.prefix] in Hp; [discriminate Hp|].
    destruct (Ascii.ascii_dec ":" c2) as [<-|]; [|discriminate Hp].
    cbn [occurs] in Hrest. apply orb_false_elim in Hrest as [_ Hrest].
    cbn [occurs] in Hrest. apply orb_false_elim in Hrest as [Hrest _].
    discriminate Hrest.
  - f_equal. by apply IH.
Qed.

Lemma str_replace_scheme (s : string) :
  occurs ":" s = false → Athena.str_replace "s3://" "" 0 ("s3://" +:+ s) = s.
Proof.
  intros Hs.
  transitivity (Athena.str_replace "s3://" "" 0 s); [by destruct s|].
  by apply str_replace_scheme_absent.
Qed.

Lemma split_once_first (bucket key : string) :
  occurs "/" bucket = false →
  Athena.split_once "/" (bucket +:+ "/" +:+ key) = [bucket; key].
Proof.
  induction bucket as [|c bucket IH]; [done|].
  intros Hc. cbn [occurs] in Hc. apply orb_false_elim in Hc as [Hc Hrest].
  change (String c bucket +:+ "/" +:+ key)
    with (String c (bucket +:+ "/" +:+ key)).
  cbn [Athena.split_once]. by rewrite Hc, IH.
Qed.

Lemma occurs_app c (s1 s2 : string) :
  occurs c (s1 +:+ s2) = occurs c s1 || occurs c s2.
Proof.
  induction s1 as [|c1 s1 IH]; [done|].
  change (String c1 s1 +:+ s2) with (String c1 (s1 +:+ s2)).
  cbn [occurs]. by rewrite IH, orb_assoc.
Qed.

(** A location [s3://bucket/key], with no slash in the bucket and no colon
    in either part, is read as that bucket and that key. *)
Lemma s3_location_plain (bucket key : string) :
  occurs "/" bucket = false →
  occurs ":" bucket = false →
  occurs ":" key = false →
  s3_location ("s3://" +:+ bucket +:+ "/" +:+ key) = Some (bucket, key).
Proof.
  intros Hslash Hb Hk. unfold s3_location.
  rewrite str_replace_scheme.
  - by rewrite split_once_first.
  - rewrite !occurs_app, Hb, Hk. reflexivity.
Qed.

(** ** One query, and a batch *)

Section Queries.
Context {R T : Type} (boto3 : Athena.aws R).
#[local] Abbreviation world := (world R T).
#[local] Abbreviation query_try := (Athena.query_try (T:=T) boto3).
#[local] Abbreviation query_turn := (Athena.query_turn (T:=T) boto3).
#[local] Abbreviation run_queries := (Athena.run_queries (T:=T) boto3).

Lemma events_of_turn_events name sql database workgroup output_location
    execution_id n :
  let evs := turn_events name sql database workgroup output_location execution_id n in
  sleeps_of evs = replicate n 2 ∧
  polls_of evs = replicate (S n) execution_id ∧
  downloads_of evs = [].
Proof.
  destruct (events_of_poll_events execution_id n) as (Hs & Hp & Hd).
  repeat split; [exact Hs | exact Hp | exact Hd].
Qed.

Lemma downloads_of_turn_events name sql database workgroup output_location
    execution_id n :
  downloads_of
    (turn_events name sql database workgroup output_location execution_id n) = [].
Proof. apply events_of_turn_events. Qed.

Lemma dict_set_fresh name path (d : list (string * string)) :
  name ∉ d.*1 → Athena.dict_set name path d = d ++ [(name, path)].
Proof.
  induction d as [|[k v] d IH]; [done|].
  intros Hfresh. apply not_elem_of_cons in Hfresh as [Hne Hfresh].
  cbn. destruct (String.eqb_spec k name) as [->|_]; [done|].
  by rewrite IH.
Qed.

Lemma exception_is_Exception (e : exn) :
  (∀ code, e ≠ SystemExit code) → is_Exception e = true.
Proof. intros He. destruct e; try done. by destruct (He code). Qed.

(** C5: a query that the service accepts, reports in a state that is not
    terminal for [n] polls and then in a terminal state.  The runner polls
    [n + 1] times and sleeps two seconds after each of the first [n].  If
    the terminal state is SUCCEEDED and the execution reports the location
    [s3://bucket/key], the runner issues one download, of that bucket and
    key to the query's CSV path, and the file is there when the object store
    delivers.  If the terminal state is FAILED or CANCELLED the runner
    issues no download, leaves the files as they were and prints the reason
    the execution's status gives. *)
Theorem download_iff_succeeded (fuel : nat) (database workgroup output_location : string)
    (name sql : string) (csv_files : list (string * string))
    (execution_id : json) (n : nat) (execution state : json) (r1 r2 : R) (w : world) :
  submitted boto3 sql database workgroup output_location (remote w) execution_id r1 →
  polls boto3 execution_id r1 n execution r2 →
  query_state execution = Ok state →
  (n < fuel)%nat →
  let local_csv := csv_path name in
  let before := turn_events name sql database workgroup output_location execution_id n in
  (sleeps_of before = replicate n 2 ∧ polls_of before = replicate (S n) execution_id) ∧
  (state = JStr "SUCCEEDED" →
   ∀ bucket key answer r3,
     result_location execution = Ok (JStr ("s3://" +:+ bucket +:+ "/" +:+ key)) →
     occurs "/" bucket = false → occurs ":" bucket = false →
     occurs ":" key = false →
     Athena.download_file boto3 r2 bucket key = (answer, r3) →
     ∃ outcome files' after,
       query_turn fuel database workgroup output_location name sql csv_files w =
         (outcome, World r3 files' (dirs w) (tables w) (trace w ++ before ++ after)) ∧
       downloads_of (before ++ after) = [(bucket, key, local_csv)] ∧
       (∀ data, answer = inr data →
          files' = <[local_csv := Blob data]> (files w) ∧
          ∃ csv_files',
            outcome = Ok csv_files' ∧
            (name ∉ csv_files.*1 → csv_files' = csv_files ++ [(name, local_csv)]))) ∧
  (state = JStr "FAILED" ∨ state = JStr "CANCELLED" →
   ∃ reason after,
     failure_reason execution = Ok reason ∧
     after = [EvPrint "  Query failed: {reason}" [PJson reason]] ∧
     query_turn fuel database workgroup output_location name sql csv_files w =
       (Ok csv_files,
        World r2 (files w) (dirs w) (tables w) (trace w ++ before ++ after)) ∧
     downloads_of (before ++ after) = []).
Proof.
  intros Hsub Hpolls Hstate Hfuel local_csv before. split; [|split].
  - subst before.
    destruct (events_of_turn_events name sql database workgroup output_location
                execution_id n) as (Hs & Hp & _).
    by split.
  - intros Hok bucket key answer r3 Hloc Hslash Hb Hk Hget.
    apply succeeded_is_succeeded in Hok.
    pose proof (s3_location_plain bucket key Hslash Hb Hk) as Hparse.
    pose proof (query_turn_succeeded boto3 fuel database workgroup output_location
                  name sql csv_files execution_id n execution state _ bucket key
                  answer r1 r2 r3 w Hsub Hpolls Hstate Hok Hloc Hparse Hget Hfuel)
      as Hrun.
    cbv zeta in Hrun.
    change (in_data_dir (name +:+ ".csv")) with local_csv in Hrun.
    fold before in Hrun.
    destruct answer as [e|data].
    + destruct (is_Exception e); eexists _, _, _; (split; [exact Hrun|]);
        (split; [|done]); unfold downloads_of; rewrite omap_app;
        fold (downloads_of before); subst before;
        by rewrite downloads_of_turn_events.
    + eexists _, _, _. split; [exact Hrun|]. split.
      * unfold downloads_of. rewrite omap_app.
        fold (downloads_of before). subst before.
        by rewrite downloads_of_turn_events.
      * intros ? [= <-]. split; [done|]. eexists. split; [done|].
        apply dict_set_fresh.
  - intros Hfail.
    assert (Hno : Athena.is_succeeded state = false) by (by destruct Hfail as [-> | ->]).
    destruct (failure_reason_defined execution state Hstate) as [reason Hreason].
    exists reason, [EvPrint "  Query failed: {reason}" [PJson reason]].
    split; [exact Hreason|]. split; [done|]. split.
    + by eapply query_turn_failed.
    + unfold downloads_of. rewrite omap_app.
      fold (downloads_of before). subst before.
      by rewrite downloads_of_turn_events.
Qed.

(** C6: a turn of the query loop that fails does not stop the loop.  If the
    [try] block of a query raises, the loop goes on with the remaining
    queries, the CSV table and the files as they were, and the error on the
    output; if the query's execution ends in FAILED or in CANCELLED, the
    loop goes on likewise, with no download issued and the execution's
    reason on the output. *)
Theorem query_failure_is_isolated (fuel : nat)
    (database workgroup output_location : string) (name sql : string)
    (rest csv_files : list (string * string)) (w : world) :
  let w0 := World (remote w) (files w) (dirs w) (tables w)
              (trace w ++ [EvPrint "\nExecuting query: {name}" [PStr name]]) in
  (∀ e w1,
     (∀ code, e ≠ SystemExit code) →
     query_try fuel database workgroup output_location name sql csv_files w0
       = (Raise e, w1) →
     same_local w w1 ∧
     run_queries fuel database workgroup output_location ((name, sql) :: rest)
       csv_files w =
     run_queries fuel database workgroup output_location rest csv_files
       (World (remote w1) (files w1) (dirs w1) (tables w1)
          (trace w1 ++ [EvPrint "  Error: {e}" [PExn e]]))) ∧
  (∀ execution_id n execution state r1 r2,
     submitted boto3 sql database workgroup output_location (remote w)
       execution_id r1 →
     polls boto3 execution_id r1 n execution r2 →
     query_state execution = Ok state →
     state = JStr "FAILED" ∨ state = JStr "CANCELLED" →
     (n < fuel)%nat →
     ∃ reason evs,
       failure_reason execution = Ok reason ∧
       downloads_of evs = [] ∧
       last evs = Some (EvPrint "  Query failed: {reason}" [PJson reason]) ∧
       run_queries fuel database workgroup output_location ((name, sql) :: rest)
         csv_files w =
       run_queries fuel database workgroup output_location rest csv_files
         (World r2 (files w) (dirs w) (tables w) (trace w ++ evs))).
Proof.
  intros w0. split.
  - intros e w1 He%exception_is_Exception Hrun. split.
    + apply (keeps_query_try boto3 _ _ _ _ _ _ _ w0 _ _ Hrun). done.
    + cbn [Athena.run_queries]. rewrite run_bind, query_turn_run. cbv zeta.
      fold w0. by rewrite Hrun, He.
  - intros execution_id n execution state r1 r2 Hsub Hpolls Hstate Hfail Hfuel.
    assert (Hno : Athena.is_succeeded state = false) by (by destruct Hfail as [-> | ->]).
    destruct (failure_reason_defined execution state Hstate) as [reason Hreason].
    exists reason. eexists. split; [exact Hreason|].
    split; [|split]; cycle 2.
    + cbn [Athena.run_queries]. rewrite run_bind.
      erewrite query_turn_failed by done. reflexivity.
    + unfold downloads_of. rewrite omap_app.
      fold (downloads_of
              (turn_events name sql database workgroup output_location
                 execution_id n)).
      by rewrite downloads_of_turn_events.
    + by rewrite last_snoc.
Qed.

End Queries.
(** *** The runner against a scripted service *)

Lemma submitted_scripted query database workgroup output_location r :
  submitted scripted_aws query database workgroup output_location r (JStr query) r.
Proof. eexists. split; reflexivity. Qed.

Lemma not_terminal_running : ¬ terminal (JStr "RUNNING").
Proof. intros [H | [H | H]]; discriminate H. Qed.

(** What the scripted answers carry under ["QueryExecution"]. *)
Lemma polls_cancelled eid rest :
  ∃ execution,
    polls scripted_aws eid (cancelled_answer :: rest) 0 execution rest ∧
    query_state execution = Ok (JStr "CANCELLED") ∧
    failure_reason execution = Ok (JStr "Query was cancelled by user").
Proof.
  exists (an_execution "CANCELLED"
            {["StateChangeReason" := JStr "Query was cancelled by user"]}
            "s3://results/cancelled.csv").
  split; [|split; reflexivity].
  eapply polls_done; [reflexivity | reflexivity | reflexivity |].
  right. by right.
Qed.

Lemma polls_failed eid rest :
  ∃ execution,
    polls scripted_aws eid (failed_answer :: rest) 0 execution rest ∧
    query_state execution = Ok (JStr "FAILED") ∧
    failure_reason execution = Ok (JStr "SYNTAX_ERROR: line 1:8").
Proof.
  exists (an_execution "FAILED"
            {["StateChangeReason" := JStr "SYNTAX_ERROR: line 1:8"]}
            "s3://results/failed.csv").
  split; [|split; reflexivity].
  eapply polls_done; [reflexivity | reflexivity | reflexivity |].
  right. by left.
Qed.

Lemma polls_running_succeeded eid rest :
  ∃ execution,
    polls scripted_aws eid (running_answer :: succeeded_answer :: rest) 1
      execution rest ∧
    query_state execution = Ok (JStr "SUCCEEDED") ∧
    result_location execution =
      Ok (JStr ("s3://" +:+ "results" +:+ "/" +:+ "out/usage.csv")).
Proof.
  exists (an_execution "SUCCEEDED" ∅ "s3://results/out/usage.csv").
  split; [|split; reflexivity].
  eapply polls_wait;
    [reflexivity | reflexivity | reflexivity | exact not_terminal_running |].
  eapply polls_done; [reflexivity | reflexivity | reflexivity |].
  by left.
Qed.

Lemma download_iff_succeeded_witness :
  let sql := "SELECT * FROM usage" in
  let before := turn_events "usage" sql "analytics" "primary" "s3://results/"
                  (JStr sql) 1 in
  (∃ after,
     Athena.query_turn scripted_aws 2 "analytics" "primary" "s3://results/"
       "usage" sql [] (polling [running_answer; succeeded_answer]) =
       (Ok [("usage", "data/usage.csv")],
        World [] {["data/usage.csv" := Blob "results/out/usage.csv"]} ∅ ∅
          (before ++ after)) ∧
     downloads_of (before ++ after) = [("results", "out/usage.csv", "data/usage.csv")] ∧
     sleeps_of before = [2]) ∧
  (∃ evs,
     Athena.query_turn scripted_aws 2 "analytics" "primary" "s3://results/"
       "usage" sql [] (polling [failed_answer]) =
       (Ok [], World [] ∅ ∅ ∅ evs) ∧
     downloads_of evs = [] ∧
     last evs = Some (EvPrint "  Query failed: {reason}"
                        [PJson (JStr "SYNTAX_ERROR: line 1:8")])) ∧
  (∃ evs,
     Athena.query_turn scripted_aws 2 "analytics" "primary" "s3://results/"
       "usage" sql [] (polling [cancelled_answer]) =
       (Ok [], World [] ∅ ∅ ∅ evs) ∧
     downloads_of evs = [] ∧
     last evs = Some (EvPrint "  Query failed: {reason}"
                        [PJson (JStr "Query was cancelled by user")])).
Proof.
  intros sql before. split; [|split].
  - destruct (polls_running_succeeded (JStr sql) []) as (execution & Hpolls & Hstate & Hloc).
    destruct (download_iff_succeeded (T:=file) scripted_aws 2 "analytics" "primary"
                "s3://results/" "usage" sql [] (JStr sql) 1 execution
                (JStr "SUCCEEDED") [running_answer; succeeded_answer] []
                (polling [running_answer; succeeded_answer]))
      as ((Hsl & _) & Hok & _);
      [apply submitted_scripted | exact Hpolls | exact Hstate | lia |].
    destruct (Hok eq_refl "results" "out/usage.csv" (inr "results/out/usage.csv") [])
      as (outcome & files' & after & Hrun & Hdown & Hfile);
      [exact Hloc | reflexivity..|].
    destruct (Hfile _ eq_refl) as (-> & csv_files' & -> & Hcsv).
    rewrite Hcsv in Hrun by apply not_elem_of_nil.
    exists after. split; [exact Hrun|]. split; [exact Hdown | exact Hsl].
  - destruct (polls_failed (JStr sql) []) as (execution & Hpolls & Hstate & Hwhy).
    destruct (download_iff_succeeded (T:=file) scripted_aws 2 "analytics" "primary"
                "s3://results/" "usage" sql [] (JStr sql) 0 execution
                (JStr "FAILED") [failed_answer] [] (polling [failed_answer]))
      as (_ & _ & Hfail);
      [apply submitted_scripted | exact Hpolls | exact Hstate | lia |].
    destruct (Hfail (or_introl eq_refl)) as (reason & after & Hreason & -> & Hrun & Hdown).
    rewrite Hwhy in Hreason. injection Hreason as <-.
    eexists. split; [exact Hrun|]. split; [exact Hdown|]. reflexivity.
  - destruct (polls_cancelled (JStr sql) []) as (execution & Hpolls & Hstate & Hwhy).
    destruct (download_iff_succeeded (T:=file) scripted_aws 2 "analytics" "primary"
                "s3://results/" "usage" sql [] (JStr sql) 0 execution
                (JStr "CANCELLED") [cancelled_answer] [] (polling [cancelled_answer]))
      as (_ & _ & Hfail);
      [apply submitted_scripted | exact Hpolls | exact Hstate | lia |].
    destruct (Hfail (or_intror eq_refl)) as (reason & after & Hreason & -> & Hrun & Hdown).
    rewrite Hwhy in Hreason. injection Hreason as <-.
    eexists. split; [exact Hrun|]. split; [exact Hdown|]. reflexivity.
Defined.

Lemma query_failure_is_isolated_witness :
  let script := [failed_answer; cancelled_answer; running_answer; succeeded_answer] in
  let errors := ("errors", "SELEC * FROM errors") in
  let sessions := ("sessions", "SELECT * FROM sessions") in
  let usage := ("usage", "SELECT * FROM usage") in
  let run := Athena.main scripted_aws verbatim 2 "analytics" "primary"
               "s3://results/" [errors; sessions; usage] (polling script) in
  (∃ evs,
     downloads_of evs = [] ∧
     last evs = Some (EvPrint "  Query failed: {reason}"
                        [PJson (JStr "SYNTAX_ERROR: line 1:8")]) ∧
     Athena.run_queries scripted_aws 2 "analytics" "primary" "s3://results/"
       [errors; sessions; usage] [] (polling script) =
     Athena.run_queries scripted_aws 2 "analytics" "primary" "s3://results/"
       [sessions; usage] []
       (World [cancelled_answer; running_answer; succeeded_answer] ∅ ∅ ∅ evs)) ∧
  (∃ evs,
     downloads_of evs = [] ∧
     last evs = Some (EvPrint "  Query failed: {reason}"
                        [PJson (JStr "Query was cancelled by user")]) ∧
     Athena.run_queries scripted_aws 2 "analytics" "primary" "s3://results/"
       [sessions; usage] []
       (polling [cancelled_answer; running_answer; succeeded_answer]) =
     Athena.run_queries scripted_aws 2 "analytics" "primary" "s3://results/"
       [usage] [] (World [running_answer; succeeded_answer] ∅ ∅ ∅ evs)) ∧
  (∃ w1,
     same_local (polling []) w1 ∧
     Athena.run_queries scripted_aws 2 "analytics" "primary" "s3://results/"
       [errors; usage] [] (polling []) =
     Athena.run_queries scripted_aws 2 "analytics" "primary" "s3://results/"
       [usage] [] w1) ∧
  run.1 = Ok () ∧
  tables run.2 !! "usage" = Some (Blob "results/out/usage.csv") ∧
  tables run.2 !! "errors" = None ∧
  tables run.2 !! "sessions" = None ∧
  files run.2 !! "data/errors.csv" = None ∧
  files run.2 !! "data/sessions.csv" = None.
Proof.
  intros script errors sessions usage run. split; [|split; [|split]].
  - destruct (polls_failed (JStr "SELEC * FROM errors")
                [cancelled_answer; running_answer; succeeded_answer])
      as (execution & Hpolls & Hstate & Hwhy).
    destruct (proj2 (query_failure_is_isolated (T:=file) scripted_aws 2 "analytics"
                       "primary" "s3://results/" "errors" "SELEC * FROM errors"
                       [sessions; usage] [] (polling script))
                (JStr "SELEC * FROM errors") 0%nat execution (JStr "FAILED") script
                [cancelled_answer; running_answer; succeeded_answer])
      as (reason & evs & Hreason & Hdown & Hlast & Hrun);
      [apply submitted_scripted | exact Hpolls | exact Hstate | by left | lia |].
    rewrite Hwhy in Hreason. injection Hreason as <-.
    exists evs. by repeat split.
  - destruct (polls_cancelled (JStr "SELECT * FROM sessions")
                [running_answer; succeeded_answer])
      as (execution & Hpolls & Hstate & Hwhy).
    destruct (proj2 (query_failure_is_isolated (T:=file) scripted_aws 2 "analytics"
                       "primary" "s3://results/" "sessions" "SELECT * FROM sessions"
                       [usage] []
                       (polling [cancelled_answer; running_answer; succeeded_answer]))
                (JStr "SELECT * FROM sessions") 0%nat execution (JStr "CANCELLED")
                [cancelled_answer; running_answer; succeeded_answer]
                [running_answer; succeeded_answer])
      as (reason & evs & Hreason & Hdown & Hlast & Hrun);
      [apply submitted_scripted | exact Hpolls | exact Hstate | by right | lia |].
    rewrite Hwhy in Hreason. injection Hreason as <-.
    exists evs. by repeat split.
  - destruct (proj1 (query_failure_is_isolated (T:=file) scripted_aws 2 "analytics"
                       "primary" "s3://results/" "errors" "SELEC * FROM errors"
                       [usage] [] (polling []))
                (ClientError "no such execution")
                (World [] ∅ ∅ ∅
                   [EvPrint "\nExecuting query: {name}" [PStr "errors"];
                    EvStartQuery "SELEC * FROM errors" "analytics" "primary"
                      "s3://results/";
                    EvPrint "  Execution ID: {execution_id}"
                      [PJson (JStr "SELEC * FROM errors")];
                    EvGetQuery (JStr "SELEC * FROM errors")]))
      as [Hsame Hrun]; [done | reflexivity |].
    eexists. split; [|exact Hrun]. exact Hsame.
  - repeat split; reflexivity.
Defined.

(** A batch of one query that succeeds, run through [main]: the table is
    loaded and the CSV file it was loaded from is still there. *)
Lemma downloaded_csv_is_kept :
  let run := Athena.main scripted_aws verbatim 2 "analytics" "primary"
               "s3://results/" [("usage", "SELECT * FROM usage")]
               (polling [succeeded_answer]) in
  run.1 = Ok () ∧
  tables run.2 !! "usage" = Some (Blob "results/out/usage.csv") ∧
  files run.2 !! "data/usage.csv" = Some (Blob "results/out/usage.csv").
Proof. repeat split; reflexivity. Qed.

